(** * The alfred bot: event classification, dispatch and statistics

    A shallow embedding of [bot/bot.go]: [HandleMessage] (the classification
    of one inbound chat event, the push of a work request, the dispatch of
    the direct-message commands and the per-team message counter) and
    [storeStatistics] (the periodic flush of the counters).

    Conventions of the embedding.
    - Go strings are byte strings: [string] over [ascii].
    - The bot's collaborators (repository, work queue, logger, command
      handlers) are observed through a trace of [Effect]s; the bot's own
      maps ([subscriptions], [stats]) are explicit state, threaded through
      the small monad [M].
    - One call is modelled sequentially: the mutexes [mu] and [smu] and the
      [stop] channel have no counterpart. *)

From Stdlib Require Import String Ascii List ZArith Bool Lia.
From stdpp Require Import base option strings gmap list.

Local Open Scope string_scope.

(** ** Package [strings] (Go standard library) *)

Module strings.

(** [strings.ToLower] on the ASCII range: 'A'..'Z' are mapped to
    'a'..'z', every other byte is kept.  Bytes above 0x7f are left alone,
    which is Go's result for every text without upper-case letters outside
    ASCII. *)
Definition lowerByte (c : ascii) : ascii :=
  let n := N_of_ascii c in
  if ((65 <=? n) && (n <=? 90))%N then ascii_of_N (n + 32) else c.

Fixpoint ToLower (s : string) : string :=
  match s with
  | EmptyString => EmptyString
  | String c s' => String (lowerByte c) (ToLower s')
  end.

(** [strings.HasPrefix(s, prefix)] *)
Definition HasPrefix (s prefix : string) : bool := String.prefix prefix s.

(** [strings.Contains(s, substr)] *)
Fixpoint Contains (s substr : string) : bool :=
  HasPrefix s substr ||
  match s with
  | EmptyString => false
  | String _ s' => Contains s' substr
  end.

End strings.

(** ** Package [regexp] (Go standard library), the fragment the bot uses

    The four patterns of the bot are built from the word boundary [\b],
    character classes, an escaped literal and counted repetition.  The
    matcher is a backtracking matcher in continuation-passing style; the
    continuation receives the byte just consumed (for [\b]) and the rest of
    the input.  The classes and the word boundary of these patterns are
    ASCII-only in RE2, so matching byte by byte agrees with matching rune by
    rune: a byte above 0x7f is in no class and is not a word byte. *)

Module regexp.

Inductive Regexp : Type :=
| Empty                                     (* the empty pattern *)
| WordBoundary                              (* \b *)
| Class (ranges : list (ascii * ascii))     (* [a-fA-F\d], \d *)
| Lit (c : ascii)                           (* \. *)
| Cat (r1 r2 : Regexp)                      (* r1r2 *)
| Repeat (r : Regexp) (lo hi : nat).        (* r{lo,hi}; r{n} is r{n,n} *)

Definition Concat (rs : list Regexp) : Regexp := fold_right Cat Empty rs.

Definition inRange (c : ascii) (rg : ascii * ascii) : bool :=
  ((N_of_ascii (fst rg) <=? N_of_ascii c) && (N_of_ascii c <=? N_of_ascii (snd rg)))%N.

Definition inClass (ranges : list (ascii * ascii)) (c : ascii) : bool :=
  existsb (inRange c) ranges.

(** [\w] of RE2: [0-9A-Za-z_] *)
Definition wordRanges : list (ascii * ascii) :=
  [("0", "9"); ("A", "Z"); ("a", "z"); ("_", "_")]%char.

Definition isWord (c : ascii) : bool := inClass wordRanges c.

Definition isWordBefore (prev : option ascii) : bool :=
  match prev with Some c => isWord c | None => false end.

Definition isWordAfter (s : string) : bool :=
  match s with String c _ => isWord c | EmptyString => false end.

(** [\b]: a word byte on exactly one side; the start and the end of the
    text count as non-word. *)
Definition atWordBoundary (prev : option ascii) (s : string) : bool :=
  xorb (isWordBefore prev) (isWordAfter s).

Definition Cont : Type := option ascii -> string -> bool.
Definition Matcher : Type := option ascii -> string -> Cont -> bool.

(** exactly [n] iterations *)
Definition times (f : Matcher) : nat -> Matcher :=
  fix go (n : nat) (prev : option ascii) (s : string) (k : Cont) : bool :=
    match n with
    | O => k prev s
    | S n' => f prev s (fun p s' => go n' p s' k)
    end.

(** at most [n] iterations, the longer ones tried first *)
Definition upto (f : Matcher) : nat -> Matcher :=
  fix go (n : nat) (prev : option ascii) (s : string) (k : Cont) : bool :=
    match n with
    | O => k prev s
    | S n' => f prev s (fun p s' => go n' p s' k) || k prev s
    end.

Fixpoint accept (r : Regexp) (prev : option ascii) (s : string) (k : Cont) : bool :=
  match r with
  | Empty => k prev s
  | WordBoundary => atWordBoundary prev s && k prev s
  | Class ranges =>
      match s with
      | String c s' => inClass ranges c && k (Some c) s'
      | EmptyString => false
      end
  | Lit a =>
      match s with
      | String c s' => Ascii.eqb c a && k (Some c) s'
      | EmptyString => false
      end
  | Cat r1 r2 => accept r1 prev s (fun p s' => accept r2 p s' k)
  | Repeat r' lo hi =>
      times (accept r') lo prev s
        (fun p s' => upto (accept r') (hi - lo) p s' k)
  end.

Definition matchHere (r : Regexp) (prev : option ascii) (s : string) : bool :=
  accept r prev s (fun _ _ => true).

(** a match may start at any position of the text *)
Fixpoint search (r : Regexp) (prev : option ascii) (s : string) : bool :=
  matchHere r prev s ||
  match s with
  | EmptyString => false
  | String c s' => search r (Some c) s'
  end.

(** [Regexp.MatchString]: does the text contain any match *)
Definition MatchString (r : Regexp) (s : string) : bool := search r None s.

End regexp.

(** ** Package [slack]: the decoded JSON of an event

    Modelled from the spec: the [slack] package is not among the sources.
    A [Response] is a JSON object ([map[string]interface{}], possibly nil);
    [S] reads a string field and yields the empty string when the field is
    absent or not a string, [R] reads a nested object and yields nil when
    the field is absent or not an object. *)

Module slack.

#[local] Unset Elimination Schemes.
Inductive Value : Type :=
| VString (v : string)
| VObject (fields : list (string * Value))
| VOther.
#[local] Set Elimination Schemes.

(** [None] is the nil map *)
Definition Response : Type := option (list (string * Value)).

Fixpoint field (k : string) (fields : list (string * Value)) : option Value :=
  match fields with
  | [] => None
  | (k', v) :: rest => if String.eqb k' k then Some v else field k rest
  end.

Definition get (r : Response) (k : string) : option Value :=
  match r with
  | None => None
  | Some fields => field k fields
  end.

Definition S (r : Response) (k : string) : string :=
  match get r k with
  | Some (VString v) => v
  | _ => ""
  end.

Definition R (r : Response) (k : string) : Response :=
  match get r k with
  | Some (VObject fields) => Some fields
  | _ => None
  end.

(** the client bound to a bot token *)
Record Client : Type := { Token : string }.

End slack.

(** ** Package [domain]

    Modelled from the spec: the [domain] package is not among the sources.
    The records carry the fields [bot.go] reads and writes.  [Statistics] is
    the spec's TenantStatistics (tenant internal id, message counter) and
    [Reset] brings the counter back to zero; [WorkRequestFromMessage] keeps
    the event as payload together with the credentials it is given. *)

Module domain.

Record Team : Type := {
  ID : string;
  ExternalID : string;
  BotToken : string;
  BotUserID : string;
  VTKey : string;
  XFEKey : string;
  XFEPass : string
}.

(** channel and group identifiers, each with its verbosity flag *)
Definition Configuration : Type := list (string * bool).

Module Statistics.
Record t : Type := { Team : string; Messages : Z }.
Definition Reset (v : t) : t := {| Team := Team v; Messages := 0 |}.
End Statistics.

Module Context.
Record t : Type := {
  Team : string;
  User : string;
  Type_ : string;
  Channel : string;
  OriginalUser : string
}.
End Context.

Module WorkRequest.
Record t : Type := {
  Payload : slack.Response;
  Token : string;
  VTKey : string;
  XFEKey : string;
  XFEPass : string;
  ReplyQueue : string;
  Context : option Context.t
}.
Definition setReply (w : t) (replyQueue : string) (ctx : Context.t) : t :=
  {| Payload := Payload w; Token := Token w; VTKey := VTKey w;
     XFEKey := XFEKey w; XFEPass := XFEPass w;
     ReplyQueue := replyQueue; Context := Some ctx |}.
End WorkRequest.

Definition WorkRequestFromMessage (msg : slack.Response)
    (token vtKey xfeKey xfePass : string) : WorkRequest.t :=
  {| WorkRequest.Payload := msg; WorkRequest.Token := token;
     WorkRequest.VTKey := vtKey; WorkRequest.XFEKey := xfeKey;
     WorkRequest.XFEPass := xfePass;
     WorkRequest.ReplyQueue := ""; WorkRequest.Context := None |}.

End domain.

(** ** Packages [repo] and [queue]: the collaborators' interfaces

    A call that returns [(value, error)] yields [None] on error; a call that
    returns only an [error] yields [true] when the error is nil. *)

Module repo.
Record MySQL : Type := {
  TeamByExternalID : string -> option domain.Team;
  ChannelsAndGroups : string -> option domain.Configuration;
  UpdateStatistics : domain.Statistics.t -> bool
}.
End repo.

Module queue.
Record Queue : Type := {
  PushWork : domain.WorkRequest.t -> bool
}.
End queue.

(** ** Package [bot] *)

(** subscription holds the interest we have for each team *)
Module subscription.
Record t : Type := {
  team : domain.Team;                    (* the team we are subscribed to *)
  configuration : domain.Configuration;  (* the configuration of channels *)
  s : slack.Client;                      (* the slack client on the bot token *)
  started : bool;
  ts : Z
}.
End subscription.

(** The bot: repository, subscriptions, queue and statistics.  The keys of
    [subscriptions] and [stats] are external team identifiers. *)
Module Bot.
Record t : Type := {
  r : repo.MySQL;
  subscriptions : gmap string subscription.t;
  q : queue.Queue;
  stats : gmap string domain.Statistics.t;
  firstMessages : gmap string bool
}.
Definition setSubscriptions (b : t) (m : gmap string subscription.t) : t :=
  {| r := r b; subscriptions := m; q := q b; stats := stats b;
     firstMessages := firstMessages b |}.
Definition setStats (b : t) (m : gmap string domain.Statistics.t) : t :=
  {| r := r b; subscriptions := subscriptions b; q := q b; stats := m;
     firstMessages := firstMessages b |}.
End Bot.

(** Modelled from the spec: the command handlers ([joinChannels],
    [handleVerbose], [handleConfig], [showHelp], [handleVT], [handleXFE])
    are in a file of the package that is not among the sources.  They work
    through the repository and the chat client and leave the bot's maps
    alone, so a call is recorded with its arguments. *)
Inductive Command : Type :=
| joinChannels (team text channel : string) (sub : subscription.t)
| handleVerbose (team text channel : string) (sub : subscription.t)
| handleConfig (team : string) (msg : slack.Response) (sub : subscription.t)
| showHelp (team channel : string)
| handleVT (team text channel : string) (sub : subscription.t)
| handleXFE (team text channel : string) (sub : subscription.t).

Inductive Level : Type := Debug | Warn.

(** What one call does to the world outside the bot's own maps, and the
    accesses to the subscription cache. *)
Inductive Effect : Type :=
| Log (level : Level) (format : string)
| CacheLookup (team : string)
| CacheStore (team : string)
| RepoTeamByExternalID (team : string)
| RepoChannelsAndGroups (id : string)
| RepoUpdateStatistics (key : string) (v : domain.Statistics.t)
| QueuePushWork (w : domain.WorkRequest.t)
| Handler (c : Command).

(** State of the bot and trace of effects *)
Definition M (A : Type) : Type := Bot.t -> A * Bot.t * list Effect.

Definition ret {A : Type} (a : A) : M A := fun b => (a, b, []).

Definition bind {A B : Type} (m : M A) (f : A -> M B) : M B :=
  fun b =>
    let r1 := m b in
    let r2 := f (fst (fst r1)) (snd (fst r1)) in
    (fst r2, (snd r1 ++ snd r2)%list).

Definition emit (e : Effect) : M unit := fun b => (tt, b, [e]).

Notation "x <- m ;; k" := (bind m (fun x => k))
  (at level 100, m at next level, right associativity).
Notation "m ;; k" := (bind m (fun _ => k))
  (at level 100, right associativity).

(** the final state and the trace of a run *)
Definition run {A : Type} (m : M A) (b : Bot.t) : Bot.t * list Effect :=
  (snd (fst (m b)), snd (m b)).

(** *** The trigger patterns *)

(** [\d] *)
Definition digitRanges : list (ascii * ascii) := [("0", "9")]%char.
Definition digit : regexp.Regexp := regexp.Class digitRanges.

(** [[a-fA-F\d]] *)
Definition hexRanges : list (ascii * ascii) :=
  [("a", "f"); ("A", "F"); ("0", "9")]%char.
Definition hexDigit : regexp.Regexp := regexp.Class hexRanges.

(** [\b\d{1,3}\.\d{1,3}\.\d{1,3}\.\d{1,3}\b] *)
Definition ipReg : regexp.Regexp :=
  regexp.Concat
    [regexp.WordBoundary;
     regexp.Repeat digit 1 3; regexp.Lit ".";
     regexp.Repeat digit 1 3; regexp.Lit ".";
     regexp.Repeat digit 1 3; regexp.Lit ".";
     regexp.Repeat digit 1 3;
     regexp.WordBoundary].

(** [\b[a-fA-F\d]{n}\b] for n = 32, 40, 64 *)
Definition hexReg (n : nat) : regexp.Regexp :=
  regexp.Concat [regexp.WordBoundary; regexp.Repeat hexDigit n n; regexp.WordBoundary].

Definition md5Reg : regexp.Regexp := hexReg 32.
Definition sha1Reg : regexp.Regexp := hexReg 40.
Definition sha256Reg : regexp.Regexp := hexReg 64.

Section BotCode.

(** [util.Hostname]: the identity of this process *)
Variable Hostname : string.

(** Modelled from the spec: [relevantTeam] is in a file of the package that
    is not among the sources.  On a cache hit it returns the existing entry
    without I/O, on a miss it returns nil. *)
Definition relevantTeam (team : string) : M (option subscription.t) :=
  fun b => (Bot.subscriptions b !! team, b, [CacheLookup team]).

(** [loadSubscription]; [None] is the error result *)
Definition loadSubscription (team : string) : M (option subscription.t) :=
  emit (RepoTeamByExternalID team) ;;
  fun b =>
    match repo.TeamByExternalID (Bot.r b) team with
    | None => ret None b
    | Some t =>
        (emit (RepoChannelsAndGroups (domain.ID t)) ;;
         match repo.ChannelsAndGroups (Bot.r b) (domain.ID t) with
         | None => ret None
         | Some c =>
             let teamSub :=
               {| subscription.team := t;
                  subscription.configuration := c;
                  subscription.s := {| slack.Token := domain.BotToken t |};
                  subscription.started := false;
                  subscription.ts := 0 |} in
             emit (CacheStore team) ;;
             fun b' =>
               ret (Some teamSub)
                 (Bot.setSubscriptions b' (<[team := teamSub]> (Bot.subscriptions b')))
         end) b
    end.

(** [channel != "" && channel[0] == 'D'] *)
Definition isDirect (channel : string) : bool :=
  negb (String.eqb channel "") &&
  match channel with
  | String c _ => Ascii.eqb c "D"
  | EmptyString => false
  end.

(** The condition under the negation at lines 126-129: the message is an
    internal command to the bot. *)
Definition isInternalCommand (subtype channel text ltext : string) : bool :=
  String.eqb subtype "" && isDirect channel &&
  (strings.HasPrefix ltext "join " || strings.HasPrefix ltext "verbose " ||
   String.eqb ltext "config" || String.eqb text "?" ||
   strings.HasPrefix ltext "help" || strings.HasPrefix ltext "vt " ||
   strings.HasPrefix ltext "xfe ").

(** [subtype == ""]: link marker, IP or one of the three digests *)
Definition hasEvidence (text ltext : string) : bool :=
  strings.Contains ltext "<http" || regexp.MatchString ipReg text ||
  regexp.MatchString md5Reg text || regexp.MatchString sha1Reg text ||
  regexp.MatchString sha256Reg text.

(** The value of [push] at line 138 *)
Definition pushFlag (subtype channel text ltext : string) : bool :=
  let push := false in
  if negb (isInternalCommand subtype channel text ltext) then
    let push := if String.eqb subtype "" then hasEvidence text ltext else push in
    let push := if String.eqb subtype "file_share" then true else push in
    push
  else push.

(** Lines 139-146: build the work request and push it *)
Definition pushWork (team : string) (msg : slack.Response)
    (msgUser msgType channel : string) (sub : subscription.t) : M unit :=
  emit (Log Debug "Handling message - %+v\n") ;;
  let workReq :=
    domain.WorkRequestFromMessage msg
      (domain.BotToken (subscription.team sub))
      (domain.VTKey (subscription.team sub))
      (domain.XFEKey (subscription.team sub))
      (domain.XFEPass (subscription.team sub)) in
  emit (Log Debug "Pushing to queue") ;;
  let ctx :=
    {| domain.Context.Team := team; domain.Context.User := msgUser;
       domain.Context.Type_ := msgType; domain.Context.Channel := channel;
       domain.Context.OriginalUser := msgUser |} in
  let workReq := domain.WorkRequest.setReply workReq Hostname ctx in
  emit (QueuePushWork workReq) ;;
  fun b =>
    if queue.PushWork (Bot.q b) workReq then ret tt b
    else emit (Log Warn "Unable to push work request %s") b.

(** Lines 149-164: the switch over the internal commands *)
Definition handleCommands (team : string) (msg : slack.Response)
    (text channel : string) (sub : subscription.t) : M unit :=
  if isDirect channel then
    if strings.HasPrefix text "join " then
      emit (Handler (joinChannels team text channel sub))
    else if strings.HasPrefix text "verbose " then
      emit (Handler (handleVerbose team text channel sub))
    else if String.eqb text "config" then
      emit (Handler (handleConfig team msg sub))
    else if String.eqb text "?" || strings.HasPrefix text "help" then
      emit (Handler (showHelp team channel))
    else if strings.HasPrefix text "vt " then
      emit (Handler (handleVT team text channel sub))
    else if strings.HasPrefix text "xfe " then
      emit (Handler (handleXFE team text channel sub))
    else ret tt
  else ret tt.

(** Lines 165-172: the counter of the team, created on first use *)
Definition countMessage (team : string) (sub : subscription.t) : M unit :=
  fun b =>
    let stats :=
      match Bot.stats b !! team with
      | Some v => v
      | None =>
          {| domain.Statistics.Team := domain.ID (subscription.team sub);
             domain.Statistics.Messages := 0 |}
      end in
    let stats :=
      {| domain.Statistics.Team := domain.Statistics.Team stats;
         domain.Statistics.Messages := domain.Statistics.Messages stats + 1 |} in
    (tt, Bot.setStats b (<[team := stats]> (Bot.stats b)), []).

(** Lines 112-174: the event of a team whose subscription is at hand *)
Definition handleEvent (team : string) (msg : slack.Response)
    (sub : subscription.t) : M unit :=
  let msg := slack.R msg "event" in
  let msgType := slack.S msg "type" in
  if String.eqb msgType "message" then
    let msgUser := slack.S msg "user" in
    (* If it's our message - no need to do anything *)
    if String.eqb msgUser (domain.BotUserID (subscription.team sub)) then ret tt
    else
      let text := slack.S msg "text" in
      let ltext := strings.ToLower text in
      let channel := slack.S msg "channel" in
      let push := pushFlag (slack.S msg "subtype") channel text ltext in
      if push then pushWork team msg msgUser msgType channel sub
      else
        handleCommands team msg text channel sub ;;
        countMessage team sub
  else ret tt.

Definition HandleMessage (msg : slack.Response) : M unit :=
  match msg with
  | None => ret tt
  | Some _ =>
      let team := slack.S msg "team_id" in
      if String.eqb team "" then emit (Log Warn "got empty team in message %s")
      else
        sub <- relevantTeam team ;;
        match sub with
        | Some sub => handleEvent team msg sub
        | None =>
            loaded <- loadSubscription team ;;
            match loaded with
            | None =>
                emit (Log Warn "Error loading team configuration for new team - %v")
            | Some sub => handleEvent team msg sub
            end
        end
  end.

(** [storeStatistics]: [order] is the order in which [range b.stats] visits
    the keys in this run; a key that is not in the map is not visited. *)
Fixpoint storeLoop (order : list string) : M unit :=
  match order with
  | [] => ret tt
  | k :: rest =>
      fun b =>
        match Bot.stats b !! k with
        | None => storeLoop rest b
        | Some v =>
            (emit (RepoUpdateStatistics k v) ;;
             if repo.UpdateStatistics (Bot.r b) v then
               (fun b' =>
                  ret tt (Bot.setStats b'
                            (<[k := domain.Statistics.Reset v]> (Bot.stats b')))) ;;
               storeLoop rest
             else emit (Log Warn "Unable to store statistics - %v\n")) b
        end
  end.

Definition storeStatistics (order : list string) : M unit := storeLoop order.

End BotCode.

(** ** Vocabulary of the statements *)

(** Lines 104-111 taken together: the subscription from the cache, loaded
    through the repository on a miss. *)
Definition resolve (team : string) : M (option subscription.t) :=
  sub <- relevantTeam team ;;
  match sub with
  | Some sub => ret (Some sub)
  | None => loadSubscription team
  end.

(** the work requests pushed, the handlers run and the persist attempts
    recorded in a trace *)
Definition pushes (tr : list Effect) : list domain.WorkRequest.t :=
  omap (fun e => match e with QueuePushWork w => Some w | _ => None end) tr.

Definition handlers (tr : list Effect) : list Command :=
  omap (fun e => match e with Handler c => Some c | _ => None end) tr.

Definition persists (tr : list Effect) : list (string * domain.Statistics.t) :=
  omap (fun e => match e with RepoUpdateStatistics k v => Some (k, v) | _ => None end) tr.

(** the accesses to the subscription cache and to the repository *)
Definition touchesCacheOrRepo (e : Effect) : bool :=
  match e with
  | CacheLookup _ | CacheStore _ | RepoTeamByExternalID _
  | RepoChannelsAndGroups _ | RepoUpdateStatistics _ _ => true
  | _ => false
  end.

(** the message counter of a team, zero while the team has no entry *)
Definition counter (stats : gmap string domain.Statistics.t) (team : string) : Z :=
  match stats !! team with
  | Some v => domain.Statistics.Messages v
  | None => 0
  end.

(** The four outcomes of [handleEvent], named as in the specification: the
    branches taken at lines 114, 118, 126-129 and 138. *)
Inductive Decision : Type := Ignore | InternalCommand | Trigger | Ordinary.

Definition classify (ev : slack.Response) (sub : subscription.t) : Decision :=
  if negb (String.eqb (slack.S ev "type") "message") then Ignore
  else if String.eqb (slack.S ev "user") (domain.BotUserID (subscription.team sub))
  then Ignore
  else
    let text := slack.S ev "text" in
    let ltext := strings.ToLower text in
    let channel := slack.S ev "channel" in
    let subtype := slack.S ev "subtype" in
    if isInternalCommand subtype channel text ltext then InternalCommand
    else if pushFlag subtype channel text ltext then Trigger
    else Ordinary.



(** The command shapes in the words of the specification: every test is on
    the lower-cased text. *)
Definition commandText (ltext : string) : bool :=
  strings.HasPrefix ltext "join " || strings.HasPrefix ltext "verbose " ||
  strings.HasPrefix ltext "vt " || strings.HasPrefix ltext "xfe " ||
  String.eqb ltext "config" || String.eqb ltext "?" ||
  strings.HasPrefix ltext "help".

(** The tests of the dispatch switch at lines 151-161, on the text as sent *)
Definition dispatchText (text : string) : bool :=
  strings.HasPrefix text "join " || strings.HasPrefix text "verbose " ||
  String.eqb text "config" || String.eqb text "?" ||
  strings.HasPrefix text "help" || strings.HasPrefix text "vt " ||
  strings.HasPrefix text "xfe ".

(** the work request of a trigger event, as lines 140-143 leave it *)
Definition workRequestOf (Hostname team : string) (ev : slack.Response)
    (sub : subscription.t) : domain.WorkRequest.t :=
  {| domain.WorkRequest.Payload := ev;
     domain.WorkRequest.Token := domain.BotToken (subscription.team sub);
     domain.WorkRequest.VTKey := domain.VTKey (subscription.team sub);
     domain.WorkRequest.XFEKey := domain.XFEKey (subscription.team sub);
     domain.WorkRequest.XFEPass := domain.XFEPass (subscription.team sub);
     domain.WorkRequest.ReplyQueue := Hostname;
     domain.WorkRequest.Context :=
       Some {| domain.Context.Team := team;
               domain.Context.User := slack.S ev "user";
               domain.Context.Type_ := slack.S ev "type";
               domain.Context.Channel := slack.S ev "channel";
               domain.Context.OriginalUser := slack.S ev "user" |} |}.






(** the team identifier and the nested event of a raw message *)
Definition teamOf (msg : slack.Response) : string := slack.S msg "team_id".
Definition eventOf (msg : slack.Response) : slack.Response := slack.R msg "event".

(** the four fields of an event that the classification reads *)
Definition subtypeOf (ev : slack.Response) : string := slack.S ev "subtype".
Definition channelOf (ev : slack.Response) : string := slack.S ev "channel".
Definition textOf (ev : slack.Response) : string := slack.S ev "text".
Definition userOf (ev : slack.Response) : string := slack.S ev "user".

(** the command test and the push flag of an event *)
Definition isCommandEvent (ev : slack.Response) : bool :=
  isInternalCommand (subtypeOf ev) (channelOf ev) (textOf ev) (strings.ToLower (textOf ev)).

Definition pushOf (ev : slack.Response) : bool :=
  pushFlag (subtypeOf ev) (channelOf ev) (textOf ev) (strings.ToLower (textOf ev)).

(** *** Sample data *)

Definition sampleTeam : domain.Team :=
  {| domain.ID := "1"; domain.ExternalID := "T1"; domain.BotToken := "xoxb-1";
     domain.BotUserID := "UBOT"; domain.VTKey := "vt-key";
     domain.XFEKey := "xfe-key"; domain.XFEPass := "xfe-pass" |}.

Definition sampleSub : subscription.t :=
  {| subscription.team := sampleTeam; subscription.configuration := [];
     subscription.s := {| slack.Token := "xoxb-1" |};
     subscription.started := false; subscription.ts := 0 |}.

(** a repository that knows team T1; [storeOk] decides which persists succeed *)
Definition sampleRepo (storeOk : domain.Statistics.t -> bool) : repo.MySQL :=
  {| repo.TeamByExternalID :=
       fun t => if String.eqb t "T1" then Some sampleTeam else None;
     repo.ChannelsAndGroups := fun _ => Some [];
     repo.UpdateStatistics := storeOk |}.

Definition sampleBot (storeOk : domain.Statistics.t -> bool) (pushOk : bool)
    (stats : gmap string domain.Statistics.t) : Bot.t :=
  {| Bot.r := sampleRepo storeOk; Bot.subscriptions := ∅;
     Bot.q := {| queue.PushWork := fun _ => pushOk |};
     Bot.stats := stats; Bot.firstMessages := ∅ |}.

Definition sampleEvent (subtype user channel text : string) : list (string * slack.Value) :=
  [("type", slack.VString "message"); ("subtype", slack.VString subtype);
   ("user", slack.VString user); ("channel", slack.VString channel);
   ("text", slack.VString text)].

Definition sampleMsg (team subtype user channel text : string) : slack.Response :=
  Some [("team_id", slack.VString team);
        ("event", slack.VObject (sampleEvent subtype user channel text))].

Definition md5Sample : string := "d41d8cd98f00b204e9800998ECF8427E".

(** a bot with no subscription loaded and no counter, whose repository and
    queue accept every call; the same bot with a queue that refuses *)
Definition freshBot : Bot.t := sampleBot (fun _ => true) true ∅.

(** the bot once the subscription of T1 is loaded, and the trace of the load *)
Definition loadedBot (b : Bot.t) : Bot.t := snd (fst (resolve "T1" b)).
Definition loadTrace (b : Bot.t) : list Effect := snd (resolve "T1" b).

Definition commandMsg : slack.Response :=
  sampleMsg "T1" "" "U1" "D123" ("verbose #alerts " ++ md5Sample ++ " <http://x.y>").
Definition upperMsg : slack.Response := sampleMsg "T1" "" "U1" "D123" "JOIN #general".
Definition ownMsg : slack.Response := sampleMsg "T1" "" "UBOT" "C123" "see 10.0.0.1".
Definition ipMsg : slack.Response := sampleMsg "T1" "" "U1" "C123" "999.999.999.999".
Definition noTeamFields : list (string * slack.Value) :=
  [("event", slack.VObject (sampleEvent "" "U1" "C123" "hello"))].

(** what the push branch (lines 139-146) adds to the trace *)
Definition triggerTrace (Hostname team : string) (ev : slack.Response)
    (sub : subscription.t) (b : Bot.t) : list Effect :=
  [Log Debug "Handling message - %+v\n"; Log Debug "Pushing to queue";
   QueuePushWork (workRequestOf Hostname team ev sub)] ++
  (if queue.PushWork (Bot.q b) (workRequestOf Hostname team ev sub) then []
   else [Log Warn "Unable to push work request %s"]).

(** the keys whose counter a flush hands to the repository: the keys of the
    map in the order of the iteration, up to the first persist that fails *)
Fixpoint visited (r : repo.MySQL) (stats : gmap string domain.Statistics.t)
    (order : list string) : list string :=
  match order with
  | [] => []
  | k :: rest =>
      match stats !! k with
      | None => visited r stats rest
      | Some v =>
          k :: (if repo.UpdateStatistics r v then visited r stats rest else [])
      end
  end.

(** the counter of a team after a flush: reset when the repository took
    it, kept otherwise *)
Definition flushed (r : repo.MySQL) (stats : gmap string domain.Statistics.t)
    (order : list string) (k : string) (v : domain.Statistics.t) : domain.Statistics.t :=
  if bool_decide (k ∈ visited r stats order) && repo.UpdateStatistics r v
  then domain.Statistics.Reset v else v.

(** two tenants with 3 and 5 counted messages *)
Definition sampleStats : gmap string domain.Statistics.t :=
  <["TA" := {| domain.Statistics.Team := "1"; domain.Statistics.Messages := 3 |}]>
    (<["TB" := {| domain.Statistics.Team := "2"; domain.Statistics.Messages := 5 |}]> ∅).

(** ** The maintenance code of the bot

    [loadSubscriptions], [subscriptionChanged], [monitorChanges],
    [monitorReplies], [Start] and [Stop].  These log at more levels and call
    more of the repository and the queue than the event-handling code, so
    their trace is a list of [Event]s that embeds the [Effect]s.  A loop
    that blocks on the queue or on the ticker is run against the list of
    what it receives; it ends [Waiting] when the list is used up while the
    loop is still blocked.  [Stop] sends on the stop channel: it is the
    signal [Stopped] of the loop of [Start].  The goroutines started by
    [Start] are recorded, their interleaving with the ticker loop is not
    modelled. *)

Inductive Event : Type :=
| OfBot (e : Effect)
| LogInfo (format : string)
| LogError (format : string)
| RepoTeams
| RepoBotHeartbeat
| QueuePopConf
| QueuePopWorkReply (host : string)
| CacheDelete (team : string)
| Go (routine : string)
| HandleReply (reply : domain.WorkRequest.t).

Definition L (A : Type) : Type := Bot.t -> A * Bot.t * list Event.

Definition retL {A : Type} (a : A) : L A := fun b => (a, b, []).

Definition bindL {A B : Type} (m : L A) (f : A -> L B) : L B :=
  fun b =>
    let r1 := m b in
    let r2 := f (fst (fst r1)) (snd (fst r1)) in
    (fst r2, (snd r1 ++ snd r2)%list).

Definition emitL (e : Event) : L unit := fun b => (tt, b, [e]).

(** a computation of the event-handling code inside the maintenance code *)
Definition lift {A : Type} (m : M A) : L A :=
  fun b => (fst (m b), map OfBot (snd (m b))).

Notation "x <~ m ;; k" := (bindL m (fun x => k))
  (at level 100, m at next level, right associativity).
Notation "m ~;; k" := (bindL m (fun _ => k))
  (at level 100, right associativity).

Definition runL {A : Type} (m : L A) (b : Bot.t) : Bot.t * list Event :=
  (snd (fst (m b)), snd (m b)).

Definition resultL {A : Type} (m : L A) (b : Bot.t) : A := fst (fst (m b)).

(** the subscription built from a team and its configuration (lines 59-65
    and 76-81) *)
Definition subscriptionOf (t : domain.Team) (c : domain.Configuration) : subscription.t :=
  {| subscription.team := t;
     subscription.configuration := c;
     subscription.s := {| slack.Token := domain.BotToken t |};
     subscription.started := false;
     subscription.ts := 0 |}.

(** Lines 58-67: the loop of [loadSubscriptions] over the teams *)
Fixpoint loadTeams (teams : list domain.Team) : L unit :=
  match teams with
  | [] => retL tt
  | t :: rest =>
      emitL (OfBot (RepoChannelsAndGroups (domain.ID t))) ~;;
      fun b =>
        match repo.ChannelsAndGroups (Bot.r b) (domain.ID t) with
        | None =>
            (emitL (OfBot (Log Warn "Error loading team configuration - %v\n")) ~;;
             loadTeams rest) b
        | Some c =>
            (emitL (OfBot (CacheStore (domain.ExternalID t))) ~;;
             (fun b' =>
                retL tt
                  (Bot.setSubscriptions b'
                     (<[domain.ExternalID t := subscriptionOf t c]>
                        (Bot.subscriptions b')))) ~;;
             loadTeams rest) b
        end
  end.

(** [loadSubscriptions]; [Teams] is what [b.r.Teams()] returns in this run
    ([None] on error); the result is [true] when the error is nil. *)
Definition loadSubscriptions (Teams : option (list domain.Team)) : L bool :=
  emitL RepoTeams ~;;
  match Teams with
  | None => retL false
  | Some teams => loadTeams teams ~;; retL true
  end.

(** [subscriptionChanged]: remove the subscription, it is reloaded when
    needed *)
Definition subscriptionChanged (team : string) : L unit :=
  fun b =>
    (tt, Bot.setSubscriptions b (delete team (Bot.subscriptions b)), [CacheDelete team]).

Inductive LoopEnd : Type := Ended | Waiting.

(** [monitorChanges]; an element of [pops] is what one [PopConf(0)]
    returns: the team and whether the error is nil. *)
Fixpoint monitorChanges (pops : list (string * bool)) : L LoopEnd :=
  emitL QueuePopConf ~;;
  match pops with
  | [] => retL Waiting
  | (team, errNil) :: rest =>
      if negb errNil || String.eqb team "" then
        emitL (LogInfo "Quiting monitoring changes") ~;; retL Ended
      else
        emitL (OfBot (Log Debug "Configuration change received for team: [%s]")) ~;;
        subscriptionChanged team ~;;
        monitorChanges rest
  end.

Section MaintenanceCode.

(** [util.Hostname] *)
Variable Hostname : string.

(** [monitorReplies]; an element of [pops] is what one [PopWorkReply]
    returns: the reply (if not nil) and whether the error is nil.
    Modelled from the spec: [handleReply] is not among the sources; the
    reply is handed to the reply-handling collaborator, recorded here. *)
Fixpoint monitorReplies (pops : list (option domain.WorkRequest.t * bool)) : L LoopEnd :=
  emitL (QueuePopWorkReply Hostname) ~;;
  match pops with
  | [] => retL Waiting
  | (reply, errNil) :: rest =>
      match reply with
      | Some rp =>
          if negb errNil then
            emitL (LogInfo "Quiting monitoring replies - %v\n") ~;; retL Ended
          else emitL (HandleReply rp) ~;; monitorReplies rest
      | None => emitL (LogInfo "Quiting monitoring replies - %v\n") ~;; retL Ended
      end
  end.

(** what the select of [Start] receives: a tick of the ticker, with the
    outcome of the heartbeat and the iteration order of the flush it
    triggers, or the value sent by [Stop] *)
Inductive Signal : Type :=
| Tick (heartbeatOk : bool) (order : list string)
| Stopped.

(** Lines 205-216: the loop of [Start] *)
Fixpoint tickLoop (signals : list Signal) : L LoopEnd :=
  match signals with
  | [] => retL Waiting
  | Stopped :: _ => retL Ended
  | Tick heartbeatOk order :: rest =>
      emitL RepoBotHeartbeat ~;;
      (if heartbeatOk then retL tt
       else emitL (LogError "Unable to update heartbeat - %v\n")) ~;;
      lift (storeStatistics order) ~;;
      tickLoop rest
  end.

(** the result of [Start]: the error it returned ([true] when nil), or
    still running *)
Inductive Started : Type := Returned (errNil : bool) | Running.

(** [Start]; [heartbeatOk] is the outcome of the first heartbeat *)
Definition Start (heartbeatOk : bool) (Teams : option (list domain.Team))
    (signals : list Signal) : L Started :=
  emitL RepoBotHeartbeat ~;;
  if negb heartbeatOk then retL (Returned false)
  else
    loaded <~ loadSubscriptions Teams ;;
    if negb loaded then retL (Returned false)
    else
      emitL (Go "monitorChanges") ~;;
      emitL (Go "monitorReplies") ~;;
      e <~ tickLoop signals ;;
      retL (match e with Ended => Returned true | Waiting => Running end).

End MaintenanceCode.

(** the calls to the repository in a trace of the event-handling code *)
Definition isRepoCall (e : Effect) : bool :=
  match e with
  | RepoTeamByExternalID _ | RepoChannelsAndGroups _ | RepoUpdateStatistics _ _ => true
  | _ => false
  end.

(** what the repository holds for a team now: its subscription when the
    team and its configuration both load *)
Definition repoSubscription (r : repo.MySQL) (team : string) : option subscription.t :=
  match repo.TeamByExternalID r team with
  | None => None
  | Some t =>
      match repo.ChannelsAndGroups r (domain.ID t) with
      | None => None
      | Some c => Some (subscriptionOf t c)
      end
  end.

(** every subscription is stored under the external identifier of its team *)
Definition keyed (m : gmap string subscription.t) : Prop :=
  forall k sub, m !! k = Some sub -> domain.ExternalID (subscription.team sub) = k.

(** the repository answers a lookup by external identifier with a team of
    that identifier *)
Definition consistent (r : repo.MySQL) : Prop :=
  forall k t, repo.TeamByExternalID r k = Some t -> domain.ExternalID t = k.

(** the bot after one flush per iteration order, in turn *)
Definition flushAll (orders : list (list string)) (b : Bot.t) : Bot.t :=
  fold_left (fun b' order => fst (run (storeStatistics order) b')) orders b.

(** the ticks of the ticker as signals *)
Definition ticks (l : list (bool * list string)) : list Signal :=
  map (fun p => Tick (fst p) (snd p)) l.

(** the configuration changes and the replies as the queue delivers them
    without error *)
Definition changes (teams : list string) : list (string * bool) :=
  map (fun t => (t, true)) teams.

Definition replies (l : list domain.WorkRequest.t) : list (option domain.WorkRequest.t * bool) :=
  map (fun rp => (Some rp, true)) l.

(** what ends a listener: an error of the queue, an empty team, a nil reply *)
Definition endsChanges (p : string * bool) : bool := negb (snd p) || String.eqb (fst p) "".

Definition endsReplies (p : option domain.WorkRequest.t * bool) : bool :=
  negb (snd p) || match fst p with None => true | Some _ => false end.

(** the replies handed on, the pops of the configuration queue and the
    goroutines started in a trace of the maintenance code *)
Definition handled (tr : list Event) : list domain.WorkRequest.t :=
  omap (fun e => match e with HandleReply rp => Some rp | _ => None end) tr.

Definition confPops (tr : list Event) : nat :=
  length (omap (fun e => match e with QueuePopConf => Some tt | _ => None end) tr).

Definition goroutines (tr : list Event) : list string :=
  omap (fun e => match e with Go routine => Some routine | _ => None end) tr.

(** more sample data: a second team, an event that is not a message, and
    a repository that knows no team *)
Definition secondTeam : domain.Team :=
  {| domain.ID := "2"; domain.ExternalID := "T2"; domain.BotToken := "xoxb-2";
     domain.BotUserID := "UBOT2"; domain.VTKey := ""; domain.XFEKey := "";
     domain.XFEPass := "" |}.

Definition reactionMsg : slack.Response :=
  Some [("team_id", slack.VString "T1");
        ("event", slack.VObject [("type", slack.VString "reaction_added");
                                 ("user", slack.VString "U1")])].

(** a repository that has the configuration of team 1 only *)
Definition partialBot : Bot.t :=
  {| Bot.r := {| repo.TeamByExternalID := fun _ => None;
                 repo.ChannelsAndGroups :=
                   fun id => if String.eqb id "1" then Some [("C1", true)] else None;
                 repo.UpdateStatistics := fun _ => true |};
     Bot.subscriptions := ∅;
     Bot.q := {| queue.PushWork := fun _ => true |};
     Bot.stats := ∅; Bot.firstMessages := ∅ |}.

(** ** Package [web]: the middleware

    [recoverHandler], [csrfHandler] and [authHandler].  A handler maps a request to what it writes and logs,
    and to the value it panics with, if it does.  What the handlers read
    from outside the file (the options of [conf], the functions of [util],
    the user repository, the clock) is gathered in [Env]; one call reads the
    clock once.  Modelled from the spec: [WriteError], the [Err...] values,
    [setRequestContext] and its keys, the [session] type and
    [domain.UserStatusActive] are declared in files that are not among the
    sources; they appear here as events, constructors and fields. *)

Module web.

Inductive Error : Type :=
| ErrInternalServer | ErrNotAcceptable | ErrUnsupportedMediaType
| ErrBadRequest | ErrCSRF | ErrAuth.

Inductive ContextKey : Type := contextBody | contextSession | contextUser.

Record Cookie : Type := {
  Name : string;
  Value : string;
  Path : string;
  Expires : Z;
  MaxAge : Z;
  Secure : bool;
  HttpOnly : bool
}.

(** what the handlers read of a request: the method, [r.Header.Get] and
    [r.Cookie] (the value of the cookie, [None] for [ErrNoCookie]) *)
Record Request : Type := {
  Method : string;
  HeaderGet : string -> string;
  CookieValue : string -> option string
}.

Record session : Type := { User : string; UserID : string; When : Z }.

(** the fields of [domain.User] that the handler reads ([UserName] is its
    [Name]) *)
Record user : Type := { ID : string; UserName : string; Status : Z }.

Inductive Http : Type :=
| Log (level format : string)
| WriteError (e : Error)
| SetCookie (c : Cookie)
| SetContext (key : ContextKey).

(** events in order, and the panic value if the handler panicked *)
Definition Outcome : Type := list Http * option string.

Definition Handler : Type := Request -> Outcome.

Definition after (events : list Http) (o : Outcome) : Outcome :=
  ((events ++ fst o)%list, snd o).

Record Env : Type := {
  SSLKey : string;                                  (* conf.Options.SSL.Key *)
  SessionKey : string;                              (* conf.Options.Security.SessionKey *)
  Timeout : Z;                                      (* conf.Options.Security.Timeout *)
  Encrypt : string -> string -> option string;      (* util.Encrypt, None on error *)
  Decrypt : string -> string -> option string;      (* util.Decrypt, None on error *)
  EncryptJSON : session -> string -> string;        (* util.EncryptJSON, error dropped *)
  DecryptJSON : string -> string -> option session; (* util.DecryptJSON, None on error *)
  LoadUser : string -> option user;                 (* ac.r.User, None on error *)
  StatusActive : Z;                                 (* domain.UserStatusActive *)
  now : Z;                                          (* time.Now(), in nanoseconds *)
  timeString : Z -> string;                         (* Time.String *)
  Since : Z -> Z                                    (* time.Since, in nanoseconds *)
}.

(** a 64-bit signed integer *)
Definition wrap64 (z : Z) : Z :=
  ((z + 9223372036854775808) mod 18446744073709551616 - 9223372036854775808)%Z.

Definition hour : Z := 3600000000000.
Definition minute : Z := 60000000000.

Definition recoverHandler (next : Handler) : Handler :=
  fun r =>
    match snd (next r) with
    | Some err =>
        ((fst (next r) ++ [Log "warn" "Recovered from error"; WriteError ErrInternalServer])%list,
         None)
    | None => next r
    end.

Definition xsrfCookie : string := "XSRF".
Definition xsrfHeader : string := "X-XSRF-TOKEN".
Definition noXSRFAllowed : string := "No XSRF Allowed".

(** Handle CSRF protection *)
Definition csrfHandler (env : Env) (next : Handler) : Handler :=
  fun r =>
    let csrf := CookieValue r xsrfCookie in
    let csrfHeader := HeaderGet r xsrfHeader in
    let secure := negb (String.eqb (SSLKey env) "") in
    let pass := SessionKey env in
    let decided : bool * list Http :=
      (* If it is an idempotent method, set the cookie *)
      if String.eqb (Method r) "GET" || String.eqb (Method r) "HEAD" then
        (true,
         match csrf with
         | None =>
             match Encrypt env (noXSRFAllowed ++ timeString env (now env)) pass with
             | Some val =>
                 [SetCookie {| Name := xsrfCookie; Value := val; Path := "/";
                               Expires := now env + 365 * 24 * hour;
                               MaxAge := 365 * 24 * 60 * 60;
                               Secure := secure; HttpOnly := false |}]
             | None => [Log "error" "Unable to generate CSRF"]
             end
         | Some _ => []
         end)
      else
        match csrf with
        | Some value =>
            if String.eqb value csrfHeader then
              match Decrypt env csrfHeader pass with
              | Some val => (strings.HasPrefix val noXSRFAllowed, [])
              | None => (false, [])
              end
            else (false, [])
        | None => (false, [])
        end in
    if fst decided then after (snd decided) (next r)
    else ((snd decided ++ [WriteError ErrCSRF])%list, None).

Definition sessionCookie : string := "SES".

Definition authHandler (env : Env) (next : Handler) : Handler :=
  fun r =>
    match CookieValue r sessionCookie with
    | None =>
        (* No session, bye bye *)
        ([Log "info" "Access to authenticated service without session"; WriteError ErrAuth],
         None)
    | Some value =>
        match DecryptJSON env value (SessionKey env) with
        | None =>
            ([Log "warn" "Unable to decrypt encrypted session"; WriteError ErrAuth], None)
        | Some sess =>
            (* If the session is no longer valid *)
            if (wrap64 (Timeout env * minute) <? Since env (When sess))%Z then
              ([Log "debug" "Session timeout"; WriteError ErrAuth], None)
            else
              match LoadUser env (UserID sess) with
              | None =>
                  ([SetContext contextSession; Log "debug" "User %v in request";
                    Log "warn" "Unable to load user from repository"],
                   Some "error loading user")
              | Some u =>
                  if negb (Z.eqb (Status u) (StatusActive env)) then
                    ([SetContext contextSession; Log "debug" "User %v in request";
                      Log "debug" "User %s (%s) tried to login but revoked the token";
                      WriteError ErrAuth], None)
                  else
                    (* Set the new cookie for the user with the new timeout *)
                    let sess' := {| User := User sess; UserID := UserID sess;
                                    When := now env |} in
                    let secure := negb (String.eqb (SSLKey env) "") in
                    let val := EncryptJSON env sess' (SessionKey env) in
                    after
                      [SetContext contextSession; Log "debug" "User %v in request";
                       SetContext contextUser;
                       SetCookie {| Name := sessionCookie; Value := val; Path := "/";
                                    Expires := now env + wrap64 (Timeout env * minute);
                                    MaxAge := wrap64 (Timeout env * 60);
                                    Secure := secure; HttpOnly := true |}]
                      (next r)
              end
        end
    end.

(** an environment whose cipher is the identity, with a five minute
    session, and two requests *)
Definition sampleEnv : Env :=
  {| SSLKey := ""; SessionKey := "k"; Timeout := 5;
     Encrypt := fun m _ => Some m; Decrypt := fun c _ => Some c;
     EncryptJSON := fun s _ => UserID s;
     DecryptJSON := fun c _ => Some {| User := "ann"; UserID := c; When := 0 |};
     LoadUser := fun id => if String.eqb id "u1" then
                             Some {| ID := "u1"; UserName := "ann"; Status := 1 |}
                           else None;
     StatusActive := 1; now := 1000; timeString := fun _ => " now";
     Since := fun t => (1000 - t)%Z |}.

Definition sampleRequest (method : string) (token : option string) (header : string)
    (ses : option string) : Request :=
  {| Method := method;
     HeaderGet := fun k => if String.eqb k xsrfHeader then header
                           else "";
     CookieValue := fun k => if String.eqb k xsrfCookie then token
                             else if String.eqb k sessionCookie then ses else None |}.

Definition served : Handler := fun _ => ([Log "info" "served"], None).
Definition crashing : Handler := fun _ => ([], Some "boom").

End web.

(** ** The structure of one call *)

Lemma eqb_false_of_ne (a b : string) : a <> b -> String.eqb a b = false.
Proof. intros H. apply String.eqb_neq. exact H. Qed.

Lemma team_some (msg : slack.Response) : slack.S msg "team_id" <> "" -> exists f, msg = Some f.
Proof. destruct msg as [f|]; [eauto | intros H; exfalso; apply H; reflexivity]. Qed.

Lemma resolve_cases (team : string) (b : Bot.t) :
  (exists sub, Bot.subscriptions b !! team = Some sub /\
     resolve team b = (Some sub, b, [CacheLookup team])) \/
  (Bot.subscriptions b !! team = None /\
     resolve team b =
       (fst (loadSubscription team b),
        CacheLookup team :: snd (loadSubscription team b))).
Proof.
  unfold resolve, bind, relevantTeam. cbn [fst snd].
  destruct (Bot.subscriptions b !! team) as [sub|] eqn:E.
  - left. exists sub. split; [reflexivity|]. reflexivity.
  - right. split; [reflexivity|]. reflexivity.
Qed.

Lemma loadSubscription_frame (team : string) (b : Bot.t) :
  Bot.stats (snd (fst (loadSubscription team b))) = Bot.stats b /\
  Bot.r (snd (fst (loadSubscription team b))) = Bot.r b /\
  Bot.q (snd (fst (loadSubscription team b))) = Bot.q b /\
  pushes (snd (loadSubscription team b)) = [] /\
  handlers (snd (loadSubscription team b)) = [].
Proof.
  unfold loadSubscription, bind, emit, ret. simpl.
  destruct (repo.TeamByExternalID (Bot.r b) team) as [t|]; simpl; [|auto].
  destruct (repo.ChannelsAndGroups (Bot.r b) (domain.ID t)) as [c|]; simpl; auto.
Qed.

Lemma resolve_frame (team : string) (b : Bot.t) :
  Bot.stats (snd (fst (resolve team b))) = Bot.stats b /\
  Bot.r (snd (fst (resolve team b))) = Bot.r b /\
  Bot.q (snd (fst (resolve team b))) = Bot.q b /\
  pushes (snd (resolve team b)) = [] /\
  handlers (snd (resolve team b)) = [].
Proof.
  destruct (resolve_cases team b) as [(sub & _ & ->) | (_ & ->)]; simpl.
  - auto.
  - apply loadSubscription_frame.
Qed.

Lemma HandleMessage_resolve (Hostname : string) (msg : slack.Response) (b : Bot.t) :
  slack.S msg "team_id" <> "" ->
  HandleMessage Hostname msg b =
    (sub <- resolve (slack.S msg "team_id") ;;
     match sub with
     | Some sub => handleEvent Hostname (slack.S msg "team_id") msg sub
     | None => emit (Log Warn "Error loading team configuration for new team - %v")
     end) b.
Proof.
  intros Hteam. destruct (team_some msg Hteam) as [f ->].
  unfold HandleMessage. rewrite (eqb_false_of_ne _ _ Hteam).
  unfold resolve, bind, relevantTeam. cbn [fst snd].
  destruct (Bot.subscriptions b !! _) as [sub|]; cbn [fst snd ret app]; [reflexivity|].
  reflexivity.
Qed.

Lemma HandleMessage_resolved (Hostname : string) (msg : slack.Response) (b b1 : Bot.t)
    (sub : subscription.t) (tr1 : list Effect) :
  slack.S msg "team_id" <> "" ->
  resolve (slack.S msg "team_id") b = (Some sub, b1, tr1) ->
  run (HandleMessage Hostname msg) b =
    (fst (run (handleEvent Hostname (slack.S msg "team_id") msg sub) b1),
     (tr1 ++ snd (run (handleEvent Hostname (slack.S msg "team_id") msg sub) b1))%list).
Proof.
  intros Hteam Hres. unfold run. rewrite (HandleMessage_resolve _ _ _ Hteam).
  unfold bind. rewrite Hres. reflexivity.
Qed.

Lemma HandleMessage_unresolved (Hostname : string) (msg : slack.Response) (b b1 : Bot.t)
    (tr1 : list Effect) :
  slack.S msg "team_id" <> "" ->
  resolve (slack.S msg "team_id") b = (None, b1, tr1) ->
  run (HandleMessage Hostname msg) b =
    (b1, (tr1 ++ [Log Warn "Error loading team configuration for new team - %v"])%list).
Proof.
  intros Hteam Hres. unfold run. rewrite (HandleMessage_resolve _ _ _ Hteam).
  unfold bind. rewrite Hres. reflexivity.
Qed.

Lemma handleCommands_state (team : string) (ev : slack.Response) (text channel : string)
    (sub : subscription.t) (b : Bot.t) :
  fst (handleCommands team ev text channel sub b) = (tt, b) /\
  pushes (snd (handleCommands team ev text channel sub b)) = [].
Proof.
  unfold handleCommands.
  repeat match goal with
         | |- context [if ?c then _ else _] => destruct c
         end; split; reflexivity.
Qed.

Lemma handleCommands_silent (team : string) (ev : slack.Response) (text channel : string)
    (sub : subscription.t) (b : Bot.t) :
  dispatchText text = false ->
  snd (handleCommands team ev text channel sub b) = [].
Proof.
  unfold dispatchText, handleCommands. intros H.
  repeat (apply orb_false_elim in H; destruct H as [H ?]).
  destruct (isDirect channel); [|reflexivity].
  repeat match goal with
         | E : ?c = false |- context [?c] => rewrite E
         end.
  reflexivity.
Qed.

Lemma pushFlag_command (subtype channel text ltext : string) :
  isInternalCommand subtype channel text ltext = true ->
  pushFlag subtype channel text ltext = false.
Proof. intros H. unfold pushFlag. rewrite H. reflexivity. Qed.

Lemma pushWork_run (Hostname team : string) (ev : slack.Response) (sub : subscription.t)
    (b : Bot.t) :
  run (pushWork Hostname team ev (slack.S ev "user") (slack.S ev "type")
         (slack.S ev "channel") sub) b =
  (b, triggerTrace Hostname team ev sub b).
Proof.
  unfold run, pushWork, triggerTrace, bind, emit, ret, workRequestOf,
    domain.WorkRequest.setReply, domain.WorkRequestFromMessage.
  cbn [fst snd app domain.WorkRequest.Payload domain.WorkRequest.Token
       domain.WorkRequest.VTKey domain.WorkRequest.XFEKey domain.WorkRequest.XFEPass].
  destruct (queue.PushWork _ _); reflexivity.
Qed.

Lemma handleEvent_classify (Hostname team : string) (msg : slack.Response)
    (sub : subscription.t) (b : Bot.t) :
  let ev := slack.R msg "event" in
  run (handleEvent Hostname team msg sub) b =
    match classify ev sub with
    | Ignore => (b, [])
    | Trigger => (b, triggerTrace Hostname team ev sub b)
    | InternalCommand | Ordinary =>
        (fst (run (countMessage team sub) b),
         snd (handleCommands team ev (slack.S ev "text") (slack.S ev "channel") sub b))
    end.
Proof.
  intros ev. unfold handleEvent, classify. fold ev.
  destruct (String.eqb (slack.S ev "type") "message") eqn:Ety; cbn [negb]; [|reflexivity].
  destruct (String.eqb (slack.S ev "user") _) eqn:Eu; [reflexivity|].
  destruct (isInternalCommand _ _ _ _) eqn:Ec.
  - rewrite (pushFlag_command _ _ _ _ Ec).
    unfold run, bind.
    destruct (handleCommands_state team ev (slack.S ev "text") (slack.S ev "channel") sub b) as [Hs _].
    rewrite Hs. cbn [fst snd]. unfold countMessage. cbn [fst snd].
    rewrite app_nil_r. reflexivity.
  - destruct (pushFlag _ _ _ _) eqn:Ep.
    + apply pushWork_run.
    + unfold run, bind.
      destruct (handleCommands_state team ev (slack.S ev "text") (slack.S ev "channel") sub b) as [Hs _].
      rewrite Hs. cbn [fst snd]. unfold countMessage. cbn [fst snd].
      rewrite app_nil_r. reflexivity.
Qed.


Lemma pushes_app (t1 t2 : list Effect) : pushes (t1 ++ t2) = (pushes t1 ++ pushes t2)%list.
Proof. apply omap_app. Qed.

Lemma handlers_app (t1 t2 : list Effect) : handlers (t1 ++ t2) = (handlers t1 ++ handlers t2)%list.
Proof. apply omap_app. Qed.

Lemma lowerByte_question (c : ascii) : strings.lowerByte c = "?"%char -> c = "?"%char.
Proof.
  destruct c as [[] [] [] [] [] [] [] []]; vm_compute; intros H;
    first [reflexivity | discriminate H].
Qed.

Lemma ToLower_question (text : string) : strings.ToLower text = "?" -> text = "?".
Proof.
  destruct text as [|c [|c' t]]; simpl; intros H; try discriminate H.
  injection H as H. apply lowerByte_question in H. subst c. reflexivity.
Qed.

Lemma isDirect_get (channel : string) :
  String.get 0 channel = Some "D"%char -> isDirect channel = true.
Proof.
  destruct channel as [|c rest]; simpl; intros H; [discriminate H|].
  injection H as ->. reflexivity.
Qed.

Lemma commandText_internal (channel text : string) :
  String.get 0 channel = Some "D"%char ->
  commandText (strings.ToLower text) = true ->
  isInternalCommand "" channel text (strings.ToLower text) = true.
Proof.
  intros Hd Hc. unfold isInternalCommand. rewrite (isDirect_get _ Hd).
  cbn [String.eqb andb].
  unfold commandText in Hc.
  repeat (apply orb_prop in Hc; destruct Hc as [Hc|Hc]);
    try (rewrite Hc; rewrite ?orb_true_r; reflexivity).
  apply String.eqb_eq in Hc. apply ToLower_question in Hc. subst text.
  reflexivity.
Qed.

Lemma triggerTrace_pushes (Hostname team : string) (ev : slack.Response)
    (sub : subscription.t) (b : Bot.t) :
  pushes (triggerTrace Hostname team ev sub b) = [workRequestOf Hostname team ev sub] /\
  handlers (triggerTrace Hostname team ev sub b) = [].
Proof. unfold triggerTrace. destruct (queue.PushWork _ _); split; reflexivity. Qed.

Lemma classify_not_trigger (ev : slack.Response) (sub : subscription.t) :
  pushFlag (slack.S ev "subtype") (slack.S ev "channel") (slack.S ev "text")
    (strings.ToLower (slack.S ev "text")) = false ->
  classify ev sub <> Trigger.
Proof.
  intros Hp. unfold classify.
  repeat match goal with
         | |- context [if ?c then _ else _] => destruct c eqn:?
         end; congruence.
Qed.

Lemma HandleMessage_no_push (Hostname : string) (msg : slack.Response) (b : Bot.t) :
  pushFlag (slack.S (slack.R msg "event") "subtype") (slack.S (slack.R msg "event") "channel")
    (slack.S (slack.R msg "event") "text")
    (strings.ToLower (slack.S (slack.R msg "event") "text")) = false ->
  pushes (snd (run (HandleMessage Hostname msg) b)) = [].
Proof.
  intros Hp. destruct msg as [f|]; [|reflexivity].
  destruct (String.eqb (slack.S (Some f) "team_id") "") eqn:Et.
  - unfold run, HandleMessage. rewrite Et. reflexivity.
  - apply String.eqb_neq in Et.
    pose proof (resolve_frame (slack.S (Some f) "team_id") b) as (_ & _ & _ & Hpu & _).
    destruct (resolve (slack.S (Some f) "team_id") b) as [[[sub|] b1] tr1] eqn:Er;
      cbn [snd] in Hpu.
    + rewrite (HandleMessage_resolved Hostname _ b b1 sub tr1 Et Er).
      cbn [snd]. rewrite pushes_app, Hpu. cbn [app].
      rewrite handleEvent_classify. cbv zeta.
      pose proof (classify_not_trigger _ sub Hp) as Hn.
      destruct (classify _ sub); cbn [snd]; try reflexivity; try congruence;
        apply handleCommands_state.
    + rewrite (HandleMessage_unresolved Hostname _ b b1 tr1 Et Er).
      cbn [snd]. rewrite pushes_app, Hpu. reflexivity.
Qed.

Lemma commandText_classify (ev : slack.Response) (sub : subscription.t) :
  slack.S ev "type" = "message" ->
  slack.S ev "user" <> domain.BotUserID (subscription.team sub) ->
  slack.S ev "subtype" = "" ->
  String.get 0 (slack.S ev "channel") = Some "D"%char ->
  commandText (strings.ToLower (slack.S ev "text")) = true ->
  classify ev sub = InternalCommand.
Proof.
  intros Hty Hu Hsub Hd Hc. unfold classify.
  rewrite Hty, String.eqb_refl. cbn [negb].
  rewrite (proj2 (String.eqb_neq _ _) Hu), Hsub.
  rewrite (commandText_internal _ _ Hd Hc). reflexivity.
Qed.

Lemma countMessage_counter (team : string) (sub : subscription.t) (b : Bot.t) (k : string) :
  counter (Bot.stats (fst (run (countMessage team sub) b))) k =
  (counter (Bot.stats b) k + (if bool_decide (k = team) then 1 else 0))%Z.
Proof.
  unfold run, countMessage, counter. cbn [fst snd Bot.stats Bot.setStats].
  case_bool_decide as Hk.
  - subst k. rewrite lookup_insert_eq.
    destruct (Bot.stats b !! team); reflexivity.
  - rewrite lookup_insert_ne by congruence.
    destruct (Bot.stats b !! k); lia.
Qed.





Lemma append_cons (c : ascii) (s1 s2 : string) : String c s1 ++ s2 = String c (s1 ++ s2).
Proof. reflexivity. Qed.














(** ** The flush of the counters *)
Lemma visited_subset (r : repo.MySQL) (stats : gmap string domain.Statistics.t) (order : list string) (k : string) :
  k ∈ visited r stats order -> k ∈ order.
Proof.
  induction order as [|k0 rest IH]; cbn [visited]; [intros H; exact H|].
  destruct (stats !! k0) as [v|].
  - intros H. apply elem_of_cons in H as [->|H]; [left|].
    destruct (repo.UpdateStatistics r v); [right; auto | inversion H].
  - intros H. right. auto.
Qed.

Lemma visited_insert (r : repo.MySQL) (stats : gmap string domain.Statistics.t) (k0 : string)
    (x : domain.Statistics.t) (order : list string) :
  k0 ∉ order -> visited r (<[k0 := x]> stats) order = visited r stats order.
Proof.
  induction order as [|k rest IH]; intros Hn; [reflexivity|].
  apply not_elem_of_cons in Hn as [Hne Hn]. cbn [visited].
  rewrite lookup_insert_ne by congruence. rewrite (IH Hn). reflexivity.
Qed.

Lemma visited_lookup (r : repo.MySQL) (stats : gmap string domain.Statistics.t) (order : list string) (k : string) :
  k ∈ visited r stats order -> is_Some (stats !! k).
Proof.
  induction order as [|k0 rest IH]; cbn [visited]; [intros H; inversion H|].
  destruct (stats !! k0) as [v|] eqn:E; [|exact IH].
  intros H. apply elem_of_cons in H as [->|H]; [rewrite E; eauto|].
  destruct (repo.UpdateStatistics r v); [auto | inversion H].
Qed.

Lemma visited_stops (r : repo.MySQL) (stats : gmap string domain.Statistics.t) (order : list string) :
  forall (l1 : list string) (k : string) (l2 : list string),
    visited r stats order = (l1 ++ k :: l2)%list -> l2 <> [] ->
    exists v, stats !! k = Some v /\ repo.UpdateStatistics r v = true.
Proof.
  induction order as [|k0 rest IH]; cbn [visited]; intros l1 k l2 E Hl2.
  - destruct l1; discriminate E.
  - destruct (stats !! k0) as [v|] eqn:E0; [|eauto].
    destruct (repo.UpdateStatistics r v) eqn:Eok.
    + destruct l1 as [|k1 l1]; cbn [app] in E; injection E as -> E; eauto.
    + destruct l1 as [|k1 [|? ?]]; cbn [app] in E; injection E as -> E;
        try discriminate E. subst l2. congruence.
Qed.

Lemma visited_all (r : repo.MySQL) (stats : gmap string domain.Statistics.t) (order : list string) :
  (forall k v, stats !! k = Some v -> repo.UpdateStatistics r v = true) ->
  forall k, k ∈ order -> is_Some (stats !! k) -> k ∈ visited r stats order.
Proof.
  intros Hok. induction order as [|k0 rest IH]; intros k Hin Hs; [inversion Hin|].
  cbn [visited]. destruct (stats !! k0) as [v|] eqn:E0.
  - rewrite (Hok _ _ E0). apply elem_of_cons in Hin as [->|Hin]; [left | right; auto].
  - apply elem_of_cons in Hin as [->|Hin]; [rewrite E0 in Hs; destruct Hs; discriminate | auto].
Qed.


Lemma persists_cons (k : string) (v : domain.Statistics.t) (tr : list Effect) :
  persists (RepoUpdateStatistics k v :: tr) = (k, v) :: persists tr.
Proof. reflexivity. Qed.

Lemma omap_cons_Some {A B : Type} (f : A -> option B) (x : A) (y : B) (l : list A) :
  f x = Some y -> omap f (x :: l) = y :: omap f l.
Proof. intros H. change (omap f (x :: l)) with (match f x with Some y => y :: omap f l | None => omap f l end). rewrite H. reflexivity. Qed.

Lemma omap_agree {A B : Type} (f g : A -> option B) (l : list A) :
  (forall x, x ∈ l -> f x = g x) -> omap f l = omap g l.
Proof.
  induction l as [|x l IH]; intros H; [reflexivity|].
  change (match f x with Some y => y :: omap f l | None => omap f l end =
          match g x with Some y => y :: omap g l | None => omap g l end).
  rewrite (H x) by left. rewrite IH; [reflexivity|].
  intros y Hy. apply H. right. exact Hy.
Qed.

Lemma storeLoop_spec (order : list string) :
  forall b : Bot.t,
    NoDup order ->
    Bot.r (fst (run (storeLoop order) b)) = Bot.r b /\
    persists (snd (run (storeLoop order) b)) =
      omap (fun k => pair k <$> Bot.stats b !! k) (visited (Bot.r b) (Bot.stats b) order) /\
    forall k, Bot.stats (fst (run (storeLoop order) b)) !! k =
              flushed (Bot.r b) (Bot.stats b) order k <$> Bot.stats b !! k.
Proof.
  induction order as [|k0 rest IH]; intros b Hnd.
  - cbn. repeat split. intros k. unfold flushed. cbn [visited].
    destruct (Bot.stats b !! k); reflexivity.
  - apply NoDup_cons in Hnd as [Hnot Hnd].
    unfold run. cbn [storeLoop visited].
    destruct (Bot.stats b !! k0) as [v0|] eqn:E0.
    + unfold bind, emit, ret. cbn [fst snd].
      destruct (repo.UpdateStatistics (Bot.r b) v0) eqn:Eok.
      * cbn [fst snd app].
        set (b1 := Bot.setStats b (<[k0 := domain.Statistics.Reset v0]> (Bot.stats b))).
        destruct (IH b1 Hnd) as (Hr & Hp & Hl). unfold run in Hr, Hp, Hl.
        unfold flushed in Hl.
        cbn [fst snd Bot.r Bot.stats Bot.setStats b1] in Hr, Hp, Hl.
        pose proof (visited_insert (Bot.r b) (Bot.stats b) k0
                      (domain.Statistics.Reset v0) rest Hnot) as Hv.
        rewrite Hv in Hp.
        split; [exact Hr|]. split.
        -- rewrite persists_cons, Hp.
           rewrite (omap_cons_Some _ k0 (k0, v0)) by (rewrite E0; reflexivity).
           f_equal. apply omap_agree. intros k Hk.
           apply visited_subset in Hk.
           rewrite lookup_insert_ne by (intros ->; contradiction). reflexivity.
        -- intros k. rewrite Hl, Hv. unfold flushed. cbn [visited]. rewrite E0, Eok.
           destruct (decide (k = k0)) as [->|Hne].
           ++ rewrite lookup_insert_eq, E0. cbn [fmap option_fmap option_map].
              rewrite (bool_decide_false (k0 ∈ visited _ _ rest))
                by (intros Hk; apply visited_subset in Hk; contradiction).
              rewrite bool_decide_true by left. rewrite Eok. reflexivity.
           ++ rewrite lookup_insert_ne by congruence.
              destruct (Bot.stats b !! k) as [v|]; [|reflexivity].
              cbn [fmap option_fmap option_map].
              rewrite (bool_decide_ext (k ∈ k0 :: visited (Bot.r b) (Bot.stats b) rest)
                         (k ∈ visited (Bot.r b) (Bot.stats b) rest))
                by (rewrite elem_of_cons; tauto).
              reflexivity.
      * cbn [fst snd app]. split; [reflexivity|]. split.
        -- rewrite (omap_cons_Some _ k0 (k0, v0)) by (rewrite E0; reflexivity).
           reflexivity.
        -- intros k. unfold flushed. cbn [visited]. rewrite E0, Eok.
           destruct (Bot.stats b !! k) as [v|] eqn:Ek; [|reflexivity].
           cbn [fmap option_fmap option_map]. f_equal.
           destruct (decide (k = k0)) as [->|Hne].
           ++ assert (v = v0) by congruence. subst v. rewrite Eok, andb_false_r. reflexivity.
           ++ rewrite bool_decide_false; [reflexivity|].
              rewrite elem_of_cons, elem_of_nil. tauto.
    + destruct (IH b Hnd) as (Hr & Hp & Hl). unfold run in Hr, Hp, Hl.
      cbn [fst snd] in Hr, Hp, Hl.
      split; [exact Hr|]. split; [exact Hp|].
      intros k. rewrite Hl. unfold flushed. cbn [visited]. rewrite E0. reflexivity.
Qed.


(** ** Shared consequences of the classification *)

Lemma HandleMessage_trigger (Hostname : string) (msg : slack.Response) (b b1 : Bot.t)
    (sub : subscription.t) (tr1 : list Effect) :
  teamOf msg <> "" ->
  resolve (teamOf msg) b = (Some sub, b1, tr1) ->
  classify (eventOf msg) sub = Trigger ->
  run (HandleMessage Hostname msg) b =
    (b1, (tr1 ++ triggerTrace Hostname (teamOf msg) (eventOf msg) sub b1)%list) /\
  pushes (snd (run (HandleMessage Hostname msg) b)) =
    [workRequestOf Hostname (teamOf msg) (eventOf msg) sub] /\
  handlers (snd (run (HandleMessage Hostname msg) b)) = [] /\
  Bot.stats b1 = Bot.stats b /\
  Bot.q b1 = Bot.q b.
Proof.
  unfold teamOf, eventOf. intros Ht Hr Hc.
  pose proof (resolve_frame (slack.S msg "team_id") b) as (Hs & _ & Hq & Hp & Hh).
  rewrite Hr in Hs, Hq, Hp, Hh. cbn [fst snd] in Hs, Hq, Hp, Hh.
  assert (E : run (HandleMessage Hostname msg) b =
              (b1, (tr1 ++ triggerTrace Hostname (slack.S msg "team_id")
                             (slack.R msg "event") sub b1)%list)).
  { rewrite (HandleMessage_resolved Hostname msg b b1 sub tr1 Ht Hr).
    rewrite handleEvent_classify. cbv zeta. rewrite Hc. reflexivity. }
  destruct (triggerTrace_pushes Hostname (slack.S msg "team_id") (slack.R msg "event") sub b1)
    as [Hp2 Hh2].
  rewrite E. cbn [fst snd]. rewrite pushes_app, handlers_app, Hp, Hh, Hp2, Hh2.
  repeat split; assumption.
Qed.




(** ** The claims *)

(** C1. A message event with subtype [""] in a direct-message channel
    (first byte ['D']) whose lower-cased text has a command shape is an
    internal command and never a trigger: the command test of lines 126-129
    holds, [push] stays false, the event is classified internal-command
    under every subscription whose bot user is not the sender, and the call
    pushes no work request, whatever hash, IP or link the text also holds. *)
Theorem C1_command_is_never_trigger (Hostname : string) (msg : slack.Response) (b : Bot.t) :
  slack.S (eventOf msg) "type" = "message" ->
  subtypeOf (eventOf msg) = "" ->
  String.get 0 (channelOf (eventOf msg)) = Some "D"%char ->
  commandText (strings.ToLower (textOf (eventOf msg))) = true ->
  isCommandEvent (eventOf msg) = true /\
  pushOf (eventOf msg) = false /\
  (forall sub, userOf (eventOf msg) <> domain.BotUserID (subscription.team sub) ->
     classify (eventOf msg) sub = InternalCommand) /\
  pushes (snd (run (HandleMessage Hostname msg) b)) = [].
Proof.
  unfold subtypeOf, channelOf, textOf, userOf, isCommandEvent, pushOf,
    subtypeOf, channelOf, textOf, eventOf.
  intros Hty Hsub Hd Hc.
  assert (Hi : isInternalCommand (slack.S (slack.R msg "event") "subtype")
                 (slack.S (slack.R msg "event") "channel")
                 (slack.S (slack.R msg "event") "text")
                 (strings.ToLower (slack.S (slack.R msg "event") "text")) = true).
  { rewrite Hsub. apply commandText_internal; assumption. }
  pose proof (pushFlag_command _ _ _ _ Hi) as Hp.
  repeat split; try assumption.
  - intros sub Hu. apply commandText_classify; assumption.
  - apply HandleMessage_no_push. exact Hp.
Qed.



(** C3, in the form the code satisfies. A flush hands the counters to the repository in the
    order of the iteration and stops at the first persist that fails, so the
    counters after it are not attempted in this cycle.  Every counter whose
    persist succeeded is reset to 0; every other counter, the failed one and
    the ones not reached, keeps its count for the next cycle; when every
    persist succeeds, every counter of the iteration is handed over. *)
Theorem C3_flush_resets_what_it_persisted (order : list string) (b : Bot.t) :
  NoDup order ->
  persists (snd (run (storeStatistics order) b)) =
    omap (fun k => pair k <$> Bot.stats b !! k) (visited (Bot.r b) (Bot.stats b) order) /\
  (forall l1 k l2,
     visited (Bot.r b) (Bot.stats b) order = (l1 ++ k :: l2)%list -> l2 <> [] ->
     exists v, Bot.stats b !! k = Some v /\ repo.UpdateStatistics (Bot.r b) v = true) /\
  (forall k v,
     Bot.stats b !! k = Some v ->
     k ∈ visited (Bot.r b) (Bot.stats b) order ->
     repo.UpdateStatistics (Bot.r b) v = true ->
     Bot.stats (fst (run (storeStatistics order) b)) !! k =
       Some (domain.Statistics.Reset v) /\
     counter (Bot.stats (fst (run (storeStatistics order) b))) k = 0%Z) /\
  (forall k v,
     Bot.stats b !! k = Some v ->
     k ∉ visited (Bot.r b) (Bot.stats b) order \/ repo.UpdateStatistics (Bot.r b) v = false ->
     Bot.stats (fst (run (storeStatistics order) b)) !! k = Some v) /\
  (forall k, Bot.stats b !! k = None ->
     Bot.stats (fst (run (storeStatistics order) b)) !! k = None) /\
  ((forall k v, Bot.stats b !! k = Some v -> repo.UpdateStatistics (Bot.r b) v = true) ->
   forall k, k ∈ order -> is_Some (Bot.stats b !! k) ->
     k ∈ visited (Bot.r b) (Bot.stats b) order).
Proof.
  intros Hnd. unfold storeStatistics.
  destruct (storeLoop_spec order b Hnd) as (_ & Hp & Hl).
  split; [exact Hp|]. split; [apply visited_stops|].
  split; [|split; [|split]].
  - intros k v Hk Hin Hok.
    assert (E : Bot.stats (fst (run (storeLoop order) b)) !! k =
                Some (domain.Statistics.Reset v)).
    { rewrite Hl, Hk. unfold flushed. cbn [fmap option_fmap option_map].
      rewrite bool_decide_true by assumption. rewrite Hok. reflexivity. }
    split; [exact E|]. unfold counter. rewrite E. reflexivity.
  - intros k v Hk Hno. rewrite Hl, Hk. unfold flushed.
    cbn [fmap option_fmap option_map].
    destruct Hno as [Hno|Hno].
    + rewrite bool_decide_false by assumption. reflexivity.
    + rewrite Hno, andb_false_r. reflexivity.
  - intros k Hk. rewrite Hl, Hk. reflexivity.
  - apply visited_all.
Qed.

(** Against C3 in the words of the specification: with two counters and a repository that refuses the
    first persist, the flush returns after one attempt; the counter of the
    second team is never handed to the repository. *)
Lemma C3_flush_stops_at_first_failure :
  Bot.stats (sampleBot (fun _ => false) true sampleStats) !! "TB" =
    Some {| domain.Statistics.Team := "2"; domain.Statistics.Messages := 5 |} /\
  persists (snd (run (storeStatistics ["TA"; "TB"])
                   (sampleBot (fun _ => false) true sampleStats))) =
    [("TA", {| domain.Statistics.Team := "1"; domain.Statistics.Messages := 3 |})].
Proof. vm_compute. split; reflexivity. Qed.



(** C5. When the sender of a message event is the bot user of the team's
    subscription, nothing happens after the subscription lookup: the state
    and the trace are the ones the lookup left, no work request is pushed,
    no handler runs and no counter changes. *)
Theorem C5_own_message_is_noop (Hostname : string) (msg : slack.Response)
    (b b1 : Bot.t) (sub : subscription.t) (tr1 : list Effect) :
  teamOf msg <> "" ->
  resolve (teamOf msg) b = (Some sub, b1, tr1) ->
  slack.S (eventOf msg) "type" = "message" ->
  userOf (eventOf msg) = domain.BotUserID (subscription.team sub) ->
  run (HandleMessage Hostname msg) b = (b1, tr1) /\
  pushes (snd (run (HandleMessage Hostname msg) b)) = [] /\
  handlers (snd (run (HandleMessage Hostname msg) b)) = [] /\
  Bot.stats (fst (run (HandleMessage Hostname msg) b)) = Bot.stats b.
Proof.
  unfold teamOf, eventOf, userOf. intros Ht Hr Hty Hu.
  assert (E : run (HandleMessage Hostname msg) b = (b1, tr1)).
  { rewrite (HandleMessage_resolved Hostname msg b b1 sub tr1 Ht Hr).
    rewrite handleEvent_classify. cbv zeta. unfold classify.
    rewrite Hty, Hu, !String.eqb_refl. cbn [negb fst snd].
    rewrite app_nil_r. reflexivity. }
  pose proof (resolve_frame (slack.S msg "team_id") b) as (Hs & _ & _ & Hp & Hh).
  rewrite Hr in Hs, Hp, Hh. cbn [fst snd] in Hs, Hp, Hh.
  rewrite E. cbn [fst snd]. auto.
Qed.

(** C6. An event without a team identifier (the field is absent, empty or
    not a string) is dropped with one log line: the bot is unchanged and the
    trace holds the warning only, so there is no access to the subscription
    cache or the repository, no push and no change of a counter. *)
Theorem C6_missing_team_is_dropped (Hostname : string)
    (fields : list (string * slack.Value)) (b : Bot.t) :
  teamOf (Some fields) = "" ->
  run (HandleMessage Hostname (Some fields)) b =
    (b, [Log Warn "got empty team in message %s"]) /\
  filter (fun e => touchesCacheOrRepo e = true)
    (snd (run (HandleMessage Hostname (Some fields)) b)) = [] /\
  pushes (snd (run (HandleMessage Hostname (Some fields)) b)) = [] /\
  Bot.stats (fst (run (HandleMessage Hostname (Some fields)) b)) = Bot.stats b /\
  Bot.subscriptions (fst (run (HandleMessage Hostname (Some fields)) b)) =
    Bot.subscriptions b.
Proof.
  unfold teamOf. intros Ht.
  assert (E : run (HandleMessage Hostname (Some fields)) b =
              (b, [Log Warn "got empty team in message %s"])).
  { unfold run, HandleMessage. rewrite Ht. reflexivity. }
  rewrite E. repeat split; reflexivity.
Qed.




(** C9. The command test reads the lower-cased text and the dispatch switch
    reads the text as sent.  A direct message with subtype [""] whose
    lower-cased text has a command shape while the text as sent passes none
    of the tests of the switch (JOIN #general) is classified
    internal-command, so no work request is pushed; no handler runs; and the
    counter of the team is incremented. *)
Theorem C9_upper_case_command_is_counted_not_handled (Hostname : string)
    (msg : slack.Response) (b b1 : Bot.t) (sub : subscription.t) (tr1 : list Effect) :
  teamOf msg <> "" ->
  resolve (teamOf msg) b = (Some sub, b1, tr1) ->
  slack.S (eventOf msg) "type" = "message" ->
  userOf (eventOf msg) <> domain.BotUserID (subscription.team sub) ->
  subtypeOf (eventOf msg) = "" ->
  String.get 0 (channelOf (eventOf msg)) = Some "D"%char ->
  commandText (strings.ToLower (textOf (eventOf msg))) = true ->
  dispatchText (textOf (eventOf msg)) = false ->
  classify (eventOf msg) sub = InternalCommand /\
  run (HandleMessage Hostname msg) b =
    (fst (run (countMessage (teamOf msg) sub) b1), tr1) /\
  pushes (snd (run (HandleMessage Hostname msg) b)) = [] /\
  handlers (snd (run (HandleMessage Hostname msg) b)) = [] /\
  counter (Bot.stats (fst (run (HandleMessage Hostname msg) b))) (teamOf msg) =
    (counter (Bot.stats b) (teamOf msg) + 1)%Z.
Proof.
  unfold teamOf, eventOf, userOf, subtypeOf, channelOf, textOf.
  intros Ht Hr Hty Hu Hsub Hd Hc Hdis.
  pose proof (commandText_classify _ sub Hty Hu Hsub Hd Hc) as Hcl.
  pose proof (resolve_frame (slack.S msg "team_id") b) as (Hs & _ & _ & Hp & Hh).
  rewrite Hr in Hs, Hp, Hh. cbn [fst snd] in Hs, Hp, Hh.
  assert (E : run (HandleMessage Hostname msg) b =
              (fst (run (countMessage (slack.S msg "team_id") sub) b1), tr1)).
  { rewrite (HandleMessage_resolved Hostname msg b b1 sub tr1 Ht Hr).
    rewrite handleEvent_classify. cbv zeta. rewrite Hcl.
    rewrite (handleCommands_silent _ _ _ _ _ _ Hdis). cbn [fst snd].
    rewrite app_nil_r. reflexivity. }
  rewrite E. cbn [fst snd]. repeat split; try assumption.
  rewrite countMessage_counter, Hs, bool_decide_true by reflexivity. reflexivity.
Qed.

(** C10. On a nil message the call returns at once: the bot is unchanged
    and the trace is empty (no log line, no access to the cache or the
    repository, no push, no change of a counter). *)
Theorem C10_nil_message_returns (Hostname : string) (b : Bot.t) :
  HandleMessage Hostname None b = (tt, b, []) /\
  run (HandleMessage Hostname None) b = (b, []).
Proof. split; reflexivity. Qed.

(** ** The claims on sample events *)

(** C1 on "verbose #alerts", an MD5 digest and a link in a direct message *)
Lemma C1_witness :
  commandText (strings.ToLower (textOf (eventOf commandMsg))) = true /\
  regexp.MatchString md5Reg (textOf (eventOf commandMsg)) = true /\
  classify (eventOf commandMsg) sampleSub = InternalCommand /\
  pushes (snd (run (HandleMessage "bot-1" commandMsg) freshBot)) = [].
Proof.
  destruct (C1_command_is_never_trigger "bot-1" commandMsg freshBot)
    as (_ & _ & Hc & Hp); try reflexivity.
  split; [reflexivity|]. split; [vm_compute; reflexivity|].
  split; [apply Hc; discriminate | exact Hp].
Defined.

(** C3 on two counters, the first persisted and reset, the second refused *)
Lemma C3_witness :
  NoDup ["TA"; "TB"] /\
  persists (snd (run (storeStatistics ["TA"; "TB"])
                   (sampleBot (fun v => Z.leb (domain.Statistics.Messages v) 4) true
                      sampleStats))) =
    [("TA", {| domain.Statistics.Team := "1"; domain.Statistics.Messages := 3 |});
     ("TB", {| domain.Statistics.Team := "2"; domain.Statistics.Messages := 5 |})].
Proof.
  assert (Hnd : NoDup ["TA"; "TB"]).
  { apply NoDup_cons. split; [|apply NoDup_singleton].
    intros H. apply elem_of_cons in H as [H|H]; [discriminate H | inversion H]. }
  split; [exact Hnd|].
  destruct (C3_flush_resets_what_it_persisted ["TA"; "TB"]
              (sampleBot (fun v => Z.leb (domain.Statistics.Messages v) 4) true sampleStats)
              Hnd) as (Hp & _).
  rewrite Hp. vm_compute. reflexivity.
Defined.


(** C5 on a message whose sender is the bot user of T1 *)
Lemma C5_witness :
  userOf (eventOf ownMsg) = domain.BotUserID (subscription.team sampleSub) /\
  run (HandleMessage "bot-1" ownMsg) freshBot = (loadedBot freshBot, loadTrace freshBot) /\
  pushes (snd (run (HandleMessage "bot-1" ownMsg) freshBot)) = [] /\
  handlers (snd (run (HandleMessage "bot-1" ownMsg) freshBot)) = [] /\
  Bot.stats (fst (run (HandleMessage "bot-1" ownMsg) freshBot)) = Bot.stats freshBot.
Proof.
  split; [reflexivity|].
  apply (C5_own_message_is_noop "bot-1" ownMsg freshBot (loadedBot freshBot) sampleSub
           (loadTrace freshBot)); first [reflexivity | discriminate].
Defined.

(** C6 on an event that has no team_id field *)
Lemma C6_witness :
  teamOf (Some noTeamFields) = "" /\
  run (HandleMessage "bot-1" (Some noTeamFields)) freshBot =
    (freshBot, [Log Warn "got empty team in message %s"]).
Proof.
  split; [reflexivity|].
  apply (C6_missing_team_is_dropped "bot-1" noTeamFields freshBot). reflexivity.
Defined.



(** C9 on JOIN #general *)
Lemma C9_witness :
  textOf (eventOf upperMsg) = "JOIN #general" /\
  classify (eventOf upperMsg) sampleSub = InternalCommand /\
  pushes (snd (run (HandleMessage "bot-1" upperMsg) freshBot)) = [] /\
  handlers (snd (run (HandleMessage "bot-1" upperMsg) freshBot)) = [] /\
  counter (Bot.stats (fst (run (HandleMessage "bot-1" upperMsg) freshBot))) "T1" =
    (counter (Bot.stats freshBot) "T1" + 1)%Z.
Proof.
  split; [reflexivity|].
  destruct (C9_upper_case_command_is_counted_not_handled "bot-1" upperMsg freshBot
              (loadedBot freshBot) sampleSub (loadTrace freshBot))
    as (Hc & _ & Hp & Hh & Hn); first [reflexivity | discriminate | idtac].
  split; [exact Hc|]. split; [exact Hp|]. split; [exact Hh | exact Hn].
Defined.

(** ** The subscription cache *)

Lemma loadSubscription_cases (team : string) (b : Bot.t) :
  loadSubscription team b =
    match repo.TeamByExternalID (Bot.r b) team with
    | None => (None, b, [RepoTeamByExternalID team])
    | Some t =>
        match repo.ChannelsAndGroups (Bot.r b) (domain.ID t) with
        | None => (None, b, [RepoTeamByExternalID team; RepoChannelsAndGroups (domain.ID t)])
        | Some c =>
            (Some (subscriptionOf t c),
             Bot.setSubscriptions b (<[team := subscriptionOf t c]> (Bot.subscriptions b)),
             [RepoTeamByExternalID team; RepoChannelsAndGroups (domain.ID t);
              CacheStore team])
        end
    end.
Proof.
  unfold loadSubscription, bind, emit, ret. cbn [fst snd].
  destruct (repo.TeamByExternalID (Bot.r b) team) as [t|]; [|reflexivity].
  cbn [fst snd]. destruct (repo.ChannelsAndGroups (Bot.r b) (domain.ID t)); reflexivity.
Qed.

Lemma loadSubscription_repo (team : string) (b : Bot.t) :
  fst (fst (loadSubscription team b)) = repoSubscription (Bot.r b) team.
Proof.
  rewrite loadSubscription_cases. unfold repoSubscription.
  destruct (repo.TeamByExternalID (Bot.r b) team) as [t|]; [|reflexivity].
  destruct (repo.ChannelsAndGroups (Bot.r b) (domain.ID t)); reflexivity.
Qed.

Lemma loadSubscription_error_state (team : string) (b : Bot.t) :
  fst (fst (loadSubscription team b)) = None ->
  snd (fst (loadSubscription team b)) = b.
Proof.
  rewrite loadSubscription_cases.
  destruct (repo.TeamByExternalID (Bot.r b) team) as [t|]; [|reflexivity].
  destruct (repo.ChannelsAndGroups (Bot.r b) (domain.ID t)); cbn [fst snd];
    [discriminate | reflexivity].
Qed.

(** X1. When [loadSubscription] returns an error the bot is left as
    it was and nothing is stored in the cache; the error comes from the team
    lookup or from the configuration lookup of the team found. *)
Theorem loadSubscription_error_keeps_the_bot (team : string) (b : Bot.t) :
  fst (fst (loadSubscription team b)) = None ->
  snd (fst (loadSubscription team b)) = b /\
  (CacheStore team ∉ snd (loadSubscription team b)) /\
  (repo.TeamByExternalID (Bot.r b) team = None \/
   exists t, repo.TeamByExternalID (Bot.r b) team = Some t /\
             repo.ChannelsAndGroups (Bot.r b) (domain.ID t) = None).
Proof.
  rewrite loadSubscription_cases.
  destruct (repo.TeamByExternalID (Bot.r b) team) as [t|] eqn:Et.
  - destruct (repo.ChannelsAndGroups (Bot.r b) (domain.ID t)) eqn:Ec; cbn [fst snd];
      intros H; [discriminate H|].
    split; [reflexivity|]. split; [|right; eauto].
    intros Hin. repeat (apply elem_of_cons in Hin as [Hin|Hin]; [discriminate Hin|]).
    inversion Hin.
  - intros _. cbn [fst snd]. split; [reflexivity|]. split; [|left; reflexivity].
    intros Hin. repeat (apply elem_of_cons in Hin as [Hin|Hin]; [discriminate Hin|]).
    inversion Hin.
Qed.

(** X2. A subscription that [loadSubscription] returns is the one
    the cache then answers for the team, without I/O; it is built from what
    the repository holds, its client carries the bot token of the team, and
    the other entries of the cache and the counters are untouched. *)
Theorem loadSubscription_then_lookup (team : string) (b b' : Bot.t)
    (sub : subscription.t) (tr : list Effect) :
  loadSubscription team b = (Some sub, b', tr) ->
  relevantTeam team b' = (Some sub, b', [CacheLookup team]) /\
  (forall k, k <> team -> Bot.subscriptions b' !! k = Bot.subscriptions b !! k) /\
  Bot.stats b' = Bot.stats b /\
  repoSubscription (Bot.r b) team = Some sub /\
  slack.Token (subscription.s sub) = domain.BotToken (subscription.team sub).
Proof.
  intros H. rewrite loadSubscription_cases in H.
  destruct (repo.TeamByExternalID (Bot.r b) team) as [t|] eqn:Et; [|discriminate H].
  destruct (repo.ChannelsAndGroups (Bot.r b) (domain.ID t)) as [c|] eqn:Ec; [|discriminate H].
  injection H as <- <- <-.
  split; [|split; [|split; [|split]]].
  - unfold relevantTeam. cbn [Bot.subscriptions Bot.setSubscriptions].
    rewrite lookup_insert_eq. reflexivity.
  - intros k Hk. cbn [Bot.subscriptions Bot.setSubscriptions].
    rewrite lookup_insert_ne by congruence. reflexivity.
  - reflexivity.
  - unfold repoSubscription. rewrite Et, Ec. reflexivity.
  - reflexivity.
Qed.

Lemma handleCommands_no_repo (team : string) (ev : slack.Response) (text channel : string)
    (sub : subscription.t) (b : Bot.t) :
  filter (fun e => isRepoCall e = true) (snd (handleCommands team ev text channel sub b)) = [].
Proof.
  unfold handleCommands.
  repeat match goal with
         | |- context [if ?c then _ else _] => destruct c
         end; reflexivity.
Qed.

Lemma handleEvent_frame (Hostname team : string) (msg : slack.Response)
    (sub : subscription.t) (b : Bot.t) :
  Bot.subscriptions (fst (run (handleEvent Hostname team msg sub) b)) = Bot.subscriptions b /\
  Bot.r (fst (run (handleEvent Hostname team msg sub) b)) = Bot.r b /\
  filter (fun e => isRepoCall e = true) (snd (run (handleEvent Hostname team msg sub) b)) = [].
Proof.
  rewrite handleEvent_classify. cbv zeta.
  destruct (classify _ sub); cbn [fst snd]; repeat split;
    try reflexivity; try apply handleCommands_no_repo.
  unfold triggerTrace. destruct (queue.PushWork _ _); reflexivity.
Qed.


(** X4. After [subscriptionChanged] for a team, the next event of
    the team goes to the repository, and the entry of the team is then what
    the repository holds now (none when the load fails), never the entry
    that was removed. *)
Theorem changed_team_is_fetched_again (Hostname : string) (msg : slack.Response) (b : Bot.t) :
  teamOf msg <> "" ->
  (exists tr,
     snd (run (HandleMessage Hostname msg) (fst (runL (subscriptionChanged (teamOf msg)) b))) =
       CacheLookup (teamOf msg) :: RepoTeamByExternalID (teamOf msg) :: tr) /\
  Bot.subscriptions
    (fst (run (HandleMessage Hostname msg) (fst (runL (subscriptionChanged (teamOf msg)) b))))
    !! teamOf msg = repoSubscription (Bot.r b) (teamOf msg).
Proof.
  unfold teamOf. intros Et.
  set (team := slack.S msg "team_id") in *.
  set (b0 := fst (runL (subscriptionChanged team) b)).
  assert (Hmiss : Bot.subscriptions b0 !! team = None).
  { unfold b0, runL, subscriptionChanged. cbn [fst snd Bot.subscriptions Bot.setSubscriptions].
    apply lookup_delete_eq. }
  assert (Hr0 : Bot.r b0 = Bot.r b) by reflexivity.
  destruct (resolve_cases team b0) as [(sub' & Hs & _) | (_ & Hr)]; [congruence|].
  pose proof (loadSubscription_cases team b0) as Hl. rewrite Hr0 in Hl.
  unfold repoSubscription.
  destruct (repo.TeamByExternalID (Bot.r b) team) as [t|] eqn:E1.
  - destruct (repo.ChannelsAndGroups (Bot.r b) (domain.ID t)) as [c|] eqn:E2;
      rewrite Hl in Hr; cbn [fst snd] in Hr.
    + rewrite (HandleMessage_resolved Hostname msg b0 _ _ _ Et Hr). cbn [fst snd].
      split; [eexists; reflexivity|].
      destruct (handleEvent_frame Hostname team msg (subscriptionOf t c)
                  (Bot.setSubscriptions b0 (<[team := subscriptionOf t c]> (Bot.subscriptions b0))))
        as (Hsub & _).
      subst team. rewrite Hsub.
      cbn [Bot.subscriptions Bot.setSubscriptions]. apply lookup_insert_eq.
    + rewrite (HandleMessage_unresolved Hostname msg b0 _ _ Et Hr). cbn [fst snd].
      split; [eexists; reflexivity | exact Hmiss].
  - rewrite Hl in Hr. cbn [fst snd] in Hr.
    rewrite (HandleMessage_unresolved Hostname msg b0 _ _ Et Hr). cbn [fst snd].
    split; [eexists; reflexivity | exact Hmiss].
Qed.

(** X5. An event of a team that is not cached and that the
    repository cannot load is dropped with a warning: the bot is unchanged,
    nothing is pushed and no handler runs. *)
Theorem unknown_team_is_dropped (Hostname : string) (msg : slack.Response) (b : Bot.t) :
  teamOf msg <> "" ->
  Bot.subscriptions b !! teamOf msg = None ->
  repoSubscription (Bot.r b) (teamOf msg) = None ->
  run (HandleMessage Hostname msg) b =
    (b, (CacheLookup (teamOf msg) :: snd (loadSubscription (teamOf msg) b) ++
         [Log Warn "Error loading team configuration for new team - %v"])%list) /\
  pushes (snd (run (HandleMessage Hostname msg) b)) = [] /\
  handlers (snd (run (HandleMessage Hostname msg) b)) = [].
Proof.
  unfold teamOf. intros Et Hmiss Hrepo.
  destruct (resolve_cases (slack.S msg "team_id") b) as [(sub' & Hs & _) | (_ & Hr)];
    [congruence|].
  pose proof (loadSubscription_repo (slack.S msg "team_id") b) as Hnone.
  rewrite Hrepo in Hnone.
  pose proof (loadSubscription_error_state (slack.S msg "team_id") b Hnone) as Hst.
  assert (Hr' : resolve (slack.S msg "team_id") b =
                (None, b, CacheLookup (slack.S msg "team_id")
                          :: snd (loadSubscription (slack.S msg "team_id") b))).
  { rewrite Hr. destruct (loadSubscription (slack.S msg "team_id") b) as [[o b'] tr].
    cbn [fst snd] in *. subst. reflexivity. }
  pose proof (resolve_frame (slack.S msg "team_id") b) as (_ & _ & _ & Hp & Hh).
  rewrite Hr' in Hp, Hh. cbn [snd] in Hp, Hh.
  rewrite (HandleMessage_unresolved Hostname msg b b _ Et Hr'). cbn [fst snd].
  split; [reflexivity|].
  change (CacheLookup (slack.S msg "team_id")
          :: snd (loadSubscription (slack.S msg "team_id") b) ++
             [Log Warn "Error loading team configuration for new team - %v"])%list
    with ((CacheLookup (slack.S msg "team_id")
           :: snd (loadSubscription (slack.S msg "team_id") b)) ++
          [Log Warn "Error loading team configuration for new team - %v"])%list.
  rewrite pushes_app, handlers_app, Hp, Hh. split; reflexivity.
Qed.

(** X6. An event whose type is not "message" does nothing after
    the subscription lookup: no push, no handler, no counter. *)
Theorem other_event_types_are_ignored (Hostname : string) (msg : slack.Response)
    (b b1 : Bot.t) (sub : subscription.t) (tr1 : list Effect) :
  teamOf msg <> "" ->
  resolve (teamOf msg) b = (Some sub, b1, tr1) ->
  slack.S (eventOf msg) "type" <> "message" ->
  run (HandleMessage Hostname msg) b = (b1, tr1) /\
  pushes (snd (run (HandleMessage Hostname msg) b)) = [] /\
  handlers (snd (run (HandleMessage Hostname msg) b)) = [] /\
  Bot.stats (fst (run (HandleMessage Hostname msg) b)) = Bot.stats b.
Proof.
  unfold teamOf, eventOf. intros Et Hr Hty.
  assert (E : run (HandleMessage Hostname msg) b = (b1, tr1)).
  { rewrite (HandleMessage_resolved Hostname msg b b1 sub tr1 Et Hr).
    rewrite handleEvent_classify. cbv zeta. unfold classify.
    rewrite (proj2 (String.eqb_neq _ _) Hty). cbn [negb fst snd].
    rewrite app_nil_r. reflexivity. }
  pose proof (resolve_frame (slack.S msg "team_id") b) as (Hs & _ & _ & Hp & Hh).
  rewrite Hr in Hs, Hp, Hh. cbn [fst snd] in Hs, Hp, Hh.
  rewrite E. cbn [fst snd]. auto.
Qed.

(** ** The classification, beyond the claims *)

Lemma prefix_ToLower (p : string) :
  forall s, String.prefix p s = true ->
            String.prefix (strings.ToLower p) (strings.ToLower s) = true.
Proof.
  induction p as [|a p IH]; intros s H; [destruct s; reflexivity|].
  destruct s as [|c s]; [discriminate H|].
  cbn [String.prefix strings.ToLower] in *.
  destruct (ascii_dec a c) as [->|Hne]; [|discriminate H].
  destruct (ascii_dec (strings.lowerByte c) (strings.lowerByte c)); [|congruence].
  apply IH. exact H.
Qed.

Lemma eqb_ToLower (p s : string) :
  String.eqb s p = true -> String.eqb (strings.ToLower s) (strings.ToLower p) = true.
Proof. intros H. apply String.eqb_eq in H. subst s. apply String.eqb_refl. Qed.

Lemma dispatch_is_command (text : string) :
  dispatchText text = true -> commandText (strings.ToLower text) = true.
Proof.
  unfold dispatchText, commandText, strings.HasPrefix. intros H.
  repeat (apply orb_prop in H; destruct H as [H|H]);
    first [ apply prefix_ToLower in H | apply eqb_ToLower in H ];
    cbn [strings.ToLower] in H;
    match type of H with
    | String.prefix ?p _ = true =>
        let p' := eval vm_compute in p in change p with p' in H
    | String.eqb _ ?p = true =>
        let p' := eval vm_compute in p in change p with p' in H
    end;
    rewrite H; rewrite ?orb_true_r; reflexivity.
Qed.

Lemma handleCommands_handlers_le1 (team : string) (ev : slack.Response) (text channel : string)
    (sub : subscription.t) (b : Bot.t) :
  length (handlers (snd (handleCommands team ev text channel sub b))) <= 1.
Proof.
  unfold handleCommands.
  repeat match goal with
         | |- context [if ?c then _ else _] => destruct c
         end; cbn; lia.
Qed.

Lemma handleCommands_one (team : string) (ev : slack.Response) (text channel : string)
    (sub : subscription.t) (b : Bot.t) :
  isDirect channel = true ->
  dispatchText text = true ->
  length (handlers (snd (handleCommands team ev text channel sub b))) = 1.
Proof.
  unfold handleCommands, dispatchText. intros Hd H. rewrite Hd.
  repeat match goal with
         | |- context [if ?c then _ else _] => destruct c eqn:?
         end; try reflexivity.
  repeat match goal with
         | E : (_ || _) = false |- _ => apply orb_false_elim in E; destruct E
         end.
  repeat match goal with
         | E : ?c = false |- _ => rewrite E in H
         end.
  discriminate H.
Qed.

Lemma handleCommands_elsewhere (team : string) (ev : slack.Response) (text channel : string)
    (sub : subscription.t) (b : Bot.t) :
  isDirect channel = false ->
  snd (handleCommands team ev text channel sub b) = [].
Proof. unfold handleCommands. intros ->. reflexivity. Qed.

(** the trace of a call is the trace of the lookup followed by what the
    classified event adds *)
Lemma HandleMessage_actions (Hostname : string) (msg : slack.Response) (b : Bot.t) :
  (pushes (snd (run (HandleMessage Hostname msg) b)) = [] /\
   handlers (snd (run (HandleMessage Hostname msg) b)) = []) \/
  (exists sub b1,
     (pushes (snd (run (HandleMessage Hostname msg) b)) =
        [workRequestOf Hostname (teamOf msg) (eventOf msg) sub] /\
      handlers (snd (run (HandleMessage Hostname msg) b)) = [] /\
      classify (eventOf msg) sub = Trigger) \/
     (pushes (snd (run (HandleMessage Hostname msg) b)) = [] /\
      handlers (snd (run (HandleMessage Hostname msg) b)) =
        handlers (snd (handleCommands (teamOf msg) (eventOf msg) (textOf (eventOf msg))
                         (channelOf (eventOf msg)) sub b1)))).
Proof.
  unfold teamOf, eventOf, textOf, channelOf.
  destruct msg as [f|]; [|left; split; reflexivity].
  destruct (String.eqb (slack.S (Some f) "team_id") "") eqn:Et.
  { left. unfold run, HandleMessage. rewrite Et. split; reflexivity. }
  apply String.eqb_neq in Et.
  pose proof (resolve_frame (slack.S (Some f) "team_id") b) as (_ & _ & _ & Hp & Hh).
  destruct (resolve (slack.S (Some f) "team_id") b) as [[[sub|] b1] tr1] eqn:Er;
    cbn [snd] in Hp, Hh.
  - rewrite (HandleMessage_resolved Hostname _ b b1 sub tr1 Et Er). cbn [snd].
    rewrite pushes_app, handlers_app, Hp, Hh. cbn [app].
    rewrite handleEvent_classify. cbv zeta.
    destruct (classify (slack.R (Some f) "event") sub) eqn:Ec; cbn [snd].
    + left. split; reflexivity.
    + right. exists sub, b1. right. split; [apply handleCommands_state | reflexivity].
    + right. exists sub, b1. left.
      destruct (triggerTrace_pushes Hostname (slack.S (Some f) "team_id")
                  (slack.R (Some f) "event") sub b1) as [-> ->]. auto.
    + right. exists sub, b1. right. split; [apply handleCommands_state | reflexivity].
  - left. rewrite (HandleMessage_unresolved Hostname _ b b1 tr1 Et Er). cbn [snd].
    rewrite pushes_app, handlers_app, Hp, Hh. split; reflexivity.
Qed.

(** X7. A message with subtype "file_share" that the bot did not
    send is always a trigger, whatever its text and its channel (a command
    text in a direct channel included): one work request, no handler, no
    counter. *)
Theorem file_share_is_always_pushed (Hostname : string) (msg : slack.Response)
    (b b1 : Bot.t) (sub : subscription.t) (tr1 : list Effect) :
  teamOf msg <> "" ->
  resolve (teamOf msg) b = (Some sub, b1, tr1) ->
  slack.S (eventOf msg) "type" = "message" ->
  userOf (eventOf msg) <> domain.BotUserID (subscription.team sub) ->
  subtypeOf (eventOf msg) = "file_share" ->
  classify (eventOf msg) sub = Trigger /\
  pushes (snd (run (HandleMessage Hostname msg) b)) =
    [workRequestOf Hostname (teamOf msg) (eventOf msg) sub] /\
  handlers (snd (run (HandleMessage Hostname msg) b)) = [] /\
  Bot.stats (fst (run (HandleMessage Hostname msg) b)) = Bot.stats b.
Proof.
  intros Et Hr Hty Hu Hsub.
  assert (Hc : classify (eventOf msg) sub = Trigger).
  { unfold classify, userOf, subtypeOf in *.
    rewrite Hty, String.eqb_refl. cbn [negb].
    rewrite (proj2 (String.eqb_neq _ _) Hu), Hsub.
    unfold isInternalCommand, pushFlag, isInternalCommand. reflexivity. }
  destruct (HandleMessage_trigger Hostname msg b b1 sub tr1 Et Hr Hc) as (E & Hp & Hh & Hs & _).
  split; [exact Hc|]. split; [exact Hp|]. split; [exact Hh|].
  rewrite E. exact Hs.
Qed.

(** X8. A message whose subtype is neither empty nor
    "file_share" is never pushed, whatever link, address or digest its text
    holds, and is never an internal command. *)
Theorem other_subtypes_are_never_pushed (Hostname : string) (msg : slack.Response) (b : Bot.t) :
  subtypeOf (eventOf msg) <> "" ->
  subtypeOf (eventOf msg) <> "file_share" ->
  pushOf (eventOf msg) = false /\
  isCommandEvent (eventOf msg) = false /\
  pushes (snd (run (HandleMessage Hostname msg) b)) = [].
Proof.
  unfold subtypeOf, pushOf, isCommandEvent, subtypeOf, channelOf, textOf, eventOf.
  intros H1 H2.
  assert (Hc : isInternalCommand (slack.S (slack.R msg "event") "subtype")
                 (slack.S (slack.R msg "event") "channel")
                 (slack.S (slack.R msg "event") "text")
                 (strings.ToLower (slack.S (slack.R msg "event") "text")) = false).
  { unfold isInternalCommand. rewrite (proj2 (String.eqb_neq _ _) H1). reflexivity. }
  assert (Hp : pushFlag (slack.S (slack.R msg "event") "subtype")
                 (slack.S (slack.R msg "event") "channel")
                 (slack.S (slack.R msg "event") "text")
                 (strings.ToLower (slack.S (slack.R msg "event") "text")) = false).
  { unfold pushFlag. rewrite Hc. cbn [negb].
    rewrite (proj2 (String.eqb_neq _ _) H1), (proj2 (String.eqb_neq _ _) H2). reflexivity. }
  split; [exact Hp|]. split; [exact Hc|].
  apply HandleMessage_no_push. exact Hp.
Qed.

(** X9. A direct message with empty subtype whose text as sent
    passes a test of the dispatch switch is an internal command that runs
    exactly one handler, pushes nothing and is counted; a text that starts
    with "join " runs [joinChannels] on the team, text, channel and
    subscription. *)
Theorem command_as_sent_runs_one_handler (Hostname : string) (msg : slack.Response)
    (b b1 : Bot.t) (sub : subscription.t) (tr1 : list Effect) :
  teamOf msg <> "" ->
  resolve (teamOf msg) b = (Some sub, b1, tr1) ->
  slack.S (eventOf msg) "type" = "message" ->
  userOf (eventOf msg) <> domain.BotUserID (subscription.team sub) ->
  subtypeOf (eventOf msg) = "" ->
  String.get 0 (channelOf (eventOf msg)) = Some "D"%char ->
  dispatchText (textOf (eventOf msg)) = true ->
  classify (eventOf msg) sub = InternalCommand /\
  length (handlers (snd (run (HandleMessage Hostname msg) b))) = 1 /\
  pushes (snd (run (HandleMessage Hostname msg) b)) = [] /\
  counter (Bot.stats (fst (run (HandleMessage Hostname msg) b))) (teamOf msg) =
    (counter (Bot.stats b) (teamOf msg) + 1)%Z /\
  (strings.HasPrefix (textOf (eventOf msg)) "join " = true ->
   handlers (snd (run (HandleMessage Hostname msg) b)) =
     [joinChannels (teamOf msg) (textOf (eventOf msg)) (channelOf (eventOf msg)) sub]).
Proof.
  unfold teamOf, eventOf, userOf, subtypeOf, channelOf, textOf.
  intros Et Hr Hty Hu Hsub Hd Hdis.
  pose proof (dispatch_is_command _ Hdis) as Hc.
  pose proof (commandText_classify _ sub Hty Hu Hsub Hd Hc) as Hcl.
  pose proof (resolve_frame (slack.S msg "team_id") b) as (Hs & _ & _ & Hp & Hh).
  rewrite Hr in Hs, Hp, Hh. cbn [fst snd] in Hs, Hp, Hh.
  rewrite (HandleMessage_resolved Hostname msg b b1 sub tr1 Et Hr).
  rewrite handleEvent_classify. cbv zeta. rewrite Hcl. cbn [fst snd].
  rewrite pushes_app, handlers_app, Hp, Hh. cbn [app].
  split; [reflexivity|]. split; [|split; [|split]].
  - apply handleCommands_one; [apply isDirect_get; exact Hd | exact Hdis].
  - apply handleCommands_state.
  - rewrite countMessage_counter, Hs, bool_decide_true by reflexivity. reflexivity.
  - intros Hj. unfold handleCommands. rewrite (isDirect_get _ Hd), Hj. reflexivity.
Qed.

(** X10. One call pushes at most one work request or runs at most
    one handler, and never both. *)
Theorem one_action_per_call (Hostname : string) (msg : slack.Response) (b : Bot.t) :
  length (pushes (snd (run (HandleMessage Hostname msg) b))) +
  length (handlers (snd (run (HandleMessage Hostname msg) b))) <= 1.
Proof.
  destruct (HandleMessage_actions Hostname msg b)
    as [[-> ->] | (sub & b1 & [(-> & -> & _) | (-> & ->)])]; cbn [length]; try lia.
  pose proof (handleCommands_handlers_le1 (teamOf msg) (eventOf msg) (textOf (eventOf msg))
                (channelOf (eventOf msg)) sub b1). lia.
Qed.

(** X11. Outside a direct channel no handler ever runs,
    whatever the text. *)
Theorem no_handler_outside_direct_channel (Hostname : string) (msg : slack.Response)
    (b : Bot.t) :
  isDirect (channelOf (eventOf msg)) = false ->
  handlers (snd (run (HandleMessage Hostname msg) b)) = [].
Proof.
  intros Hd.
  destruct (HandleMessage_actions Hostname msg b)
    as [[_ ->] | (sub & b1 & [(_ & -> & _) | (_ & ->)])]; try reflexivity.
  rewrite (handleCommands_elsewhere _ _ _ _ _ _ Hd). reflexivity.
Qed.


(** X13. A counted message (ordinary or internal
    command) leaves under the external identifier of the team an entry whose
    counter is one more than before; an entry made on first use carries the
    internal identifier of the team, an existing one keeps its own; the
    entries of the other teams are untouched. *)
Theorem counted_message_makes_or_bumps_the_entry (Hostname : string) (msg : slack.Response)
    (b b1 : Bot.t) (sub : subscription.t) (tr1 : list Effect) :
  teamOf msg <> "" ->
  resolve (teamOf msg) b = (Some sub, b1, tr1) ->
  classify (eventOf msg) sub = Ordinary \/ classify (eventOf msg) sub = InternalCommand ->
  Bot.stats (fst (run (HandleMessage Hostname msg) b)) !! teamOf msg =
    Some {| domain.Statistics.Team :=
              match Bot.stats b !! teamOf msg with
              | Some v => domain.Statistics.Team v
              | None => domain.ID (subscription.team sub)
              end;
            domain.Statistics.Messages := counter (Bot.stats b) (teamOf msg) + 1 |} /\
  forall k, k <> teamOf msg ->
    Bot.stats (fst (run (HandleMessage Hostname msg) b)) !! k = Bot.stats b !! k.
Proof.
  unfold teamOf, eventOf. intros Et Hr Hc.
  pose proof (resolve_frame (slack.S msg "team_id") b) as (Hs & _).
  rewrite Hr in Hs. cbn [fst snd] in Hs.
  rewrite (HandleMessage_resolved Hostname msg b b1 sub tr1 Et Hr).
  rewrite handleEvent_classify. cbv zeta.
  assert (E : forall X : Bot.t * list Effect,
             fst (match classify (slack.R msg "event") sub with
                  | Ignore => (b1, [])
                  | Trigger => (b1, triggerTrace Hostname (slack.S msg "team_id")
                                      (slack.R msg "event") sub b1)
                  | _ => X
                  end) = fst X).
  { intros X. destruct Hc as [-> | ->]; reflexivity. }
  cbn [fst]. rewrite E. unfold run, countMessage, counter.
  cbn [fst snd Bot.stats Bot.setStats]. rewrite Hs. split.
  - rewrite lookup_insert_eq. destruct (Bot.stats b !! slack.S msg "team_id"); reflexivity.
  - intros k Hk. rewrite lookup_insert_ne by congruence. reflexivity.
Qed.

(** ** The flush, beyond the claims *)

Lemma storeLoop_frame (order : list string) :
  forall b : Bot.t,
    Bot.subscriptions (fst (run (storeLoop order) b)) = Bot.subscriptions b /\
    Bot.q (fst (run (storeLoop order) b)) = Bot.q b.
Proof.
  induction order as [|k0 rest IH]; intros b; [split; reflexivity|].
  unfold run. cbn [storeLoop].
  destruct (Bot.stats b !! k0) as [v0|]; [|apply IH].
  unfold bind, emit, ret. cbn [fst snd].
  destruct (repo.UpdateStatistics (Bot.r b) v0); cbn [fst snd]; [|split; reflexivity].
  apply (IH (Bot.setStats b (<[k0 := domain.Statistics.Reset v0]> (Bot.stats b)))).
Qed.

(** X14. After a flush in which every persist succeeded, a
    second flush hands a zero counter to the repository for every team that
    the first one covered: no count is persisted twice. *)
Theorem second_flush_hands_over_zeros (order1 order2 : list string) (b : Bot.t)
    (k : string) (v : domain.Statistics.t) :
  NoDup order1 ->
  NoDup order2 ->
  (forall k0 v0, Bot.stats b !! k0 = Some v0 -> repo.UpdateStatistics (Bot.r b) v0 = true) ->
  k ∈ order1 ->
  (k, v) ∈ persists (snd (run (storeStatistics order2)
                             (fst (run (storeStatistics order1) b)))) ->
  domain.Statistics.Messages v = 0%Z.
Proof.
  unfold storeStatistics. intros Hnd1 Hnd2 Hok Hk Hin.
  destruct (storeLoop_spec order1 b Hnd1) as (Hr1 & _ & Hl1).
  destruct (storeLoop_spec order2 (fst (run (storeLoop order1) b)) Hnd2) as (_ & Hp2 & _).
  rewrite Hp2 in Hin. apply list_elem_of_omap in Hin as (k' & _ & Hk').
  destruct (Bot.stats (fst (run (storeLoop order1) b)) !! k') as [v'|] eqn:E; [|discriminate Hk'].
  cbn in Hk'. injection Hk' as -> ->.
  rewrite Hl1 in E.
  destruct (Bot.stats b !! k) as [v0|] eqn:E0; [|discriminate E].
  cbn in E. injection E as <-. unfold flushed.
  rewrite bool_decide_true by (apply visited_all; eauto).
  rewrite (Hok _ _ E0). reflexivity.
Qed.

(** X15. A flush leaves the subscriptions alone, neither adds nor
    removes a counter entry, keeps the team identifier of every entry, and
    leaves every counter either as it was or at zero. *)
Theorem flush_keeps_the_entries (order : list string) (b : Bot.t) :
  NoDup order ->
  Bot.subscriptions (fst (run (storeStatistics order) b)) = Bot.subscriptions b /\
  (forall k, is_Some (Bot.stats (fst (run (storeStatistics order) b)) !! k) <->
             is_Some (Bot.stats b !! k)) /\
  (forall k v', Bot.stats (fst (run (storeStatistics order) b)) !! k = Some v' ->
     exists v, Bot.stats b !! k = Some v /\
               domain.Statistics.Team v' = domain.Statistics.Team v /\
               (v' = v \/ domain.Statistics.Messages v' = 0%Z)).
Proof.
  unfold storeStatistics. intros Hnd.
  destruct (storeLoop_spec order b Hnd) as (_ & _ & Hl).
  split; [apply storeLoop_frame|]. split.
  - intros k. rewrite Hl. destruct (Bot.stats b !! k); cbn; split; intros [x Hx]; eauto;
      discriminate Hx.
  - intros k v' Hv. rewrite Hl in Hv.
    destruct (Bot.stats b !! k) as [v|]; [|discriminate Hv].
    cbn in Hv. injection Hv as <-. exists v. split; [reflexivity|].
    unfold flushed. destruct (_ && _); cbn; auto.
Qed.

Lemma counted_stats (Hostname : string) (msg : slack.Response)
    (b b1 : Bot.t) (sub : subscription.t) (tr1 : list Effect) :
  slack.S msg "team_id" <> "" ->
  resolve (slack.S msg "team_id") b = (Some sub, b1, tr1) ->
  classify (slack.R msg "event") sub = Ordinary \/
  classify (slack.R msg "event") sub = InternalCommand ->
  Bot.stats (fst (run (HandleMessage Hostname msg) b)) =
    <[slack.S msg "team_id" :=
        {| domain.Statistics.Team :=
             match Bot.stats b !! slack.S msg "team_id" with
             | Some v => domain.Statistics.Team v
             | None => domain.ID (subscription.team sub)
             end;
           domain.Statistics.Messages := counter (Bot.stats b) (slack.S msg "team_id") + 1 |}]>
      (Bot.stats b) /\
  Bot.r (fst (run (HandleMessage Hostname msg) b)) = Bot.r b.
Proof.
  intros Et Hr Hc.
  pose proof (resolve_frame (slack.S msg "team_id") b) as (Hs & Hrr & _).
  rewrite Hr in Hs, Hrr. cbn [fst snd] in Hs, Hrr.
  rewrite (HandleMessage_resolved Hostname msg b b1 sub tr1 Et Hr).
  destruct (handleEvent_frame Hostname (slack.S msg "team_id") msg sub b1) as (_ & Hre & _).
  cbn [fst]. split; [|rewrite Hre; exact Hrr].
  rewrite handleEvent_classify. cbv zeta.
  assert (E : forall X : Bot.t * list Effect,
             fst (match classify (slack.R msg "event") sub with
                  | Ignore => (b1, [])
                  | Trigger => (b1, triggerTrace Hostname (slack.S msg "team_id")
                                      (slack.R msg "event") sub b1)
                  | _ => X
                  end) = fst X).
  { intros X. destruct Hc as [-> | ->]; reflexivity. }
  rewrite E. unfold run, countMessage, counter.
  cbn [fst snd Bot.stats Bot.setStats]. rewrite Hs.
  destruct (Bot.stats b !! slack.S msg "team_id"); reflexivity.
Qed.

(** X16. After a counted message, a flush of the
    team hands to the repository the entry with the count just reached, and
    the counter is back to zero when the repository takes it. *)
Theorem counted_message_reaches_the_repository (Hostname : string) (msg : slack.Response)
    (b b1 : Bot.t) (sub : subscription.t) (tr1 : list Effect) (v : domain.Statistics.t) :
  teamOf msg <> "" ->
  resolve (teamOf msg) b = (Some sub, b1, tr1) ->
  classify (eventOf msg) sub = Ordinary \/ classify (eventOf msg) sub = InternalCommand ->
  Bot.stats (fst (run (HandleMessage Hostname msg) b)) !! teamOf msg = Some v ->
  repo.UpdateStatistics (Bot.r b) v = true ->
  domain.Statistics.Messages v = (counter (Bot.stats b) (teamOf msg) + 1)%Z /\
  persists (snd (run (storeStatistics [teamOf msg])
                   (fst (run (HandleMessage Hostname msg) b)))) = [(teamOf msg, v)] /\
  counter (Bot.stats (fst (run (storeStatistics [teamOf msg])
                             (fst (run (HandleMessage Hostname msg) b))))) (teamOf msg) = 0%Z.
Proof.
  unfold teamOf, eventOf. intros Et Hr Hc Hv Hok.
  destruct (counted_stats Hostname msg b b1 sub tr1 Et Hr Hc) as (Hst & Hrr).
  split.
  { rewrite Hst, lookup_insert_eq in Hv. injection Hv as <-. reflexivity. }
  unfold storeStatistics, run at 1 3. cbn [storeLoop]. rewrite Hv.
  unfold bind, emit, ret. cbn [fst snd]. rewrite Hrr, Hok. cbn [fst snd app].
  split; [reflexivity|].
  unfold counter. cbn [Bot.stats Bot.setStats]. rewrite lookup_insert_eq. reflexivity.
Qed.

(** ** The maintenance code *)

Lemma loadTeams_step (t : domain.Team) (rest : list domain.Team) (b : Bot.t) :
  runL (loadTeams (t :: rest)) b =
    match repo.ChannelsAndGroups (Bot.r b) (domain.ID t) with
    | None =>
        (fst (runL (loadTeams rest) b),
         OfBot (RepoChannelsAndGroups (domain.ID t))
         :: OfBot (Log Warn "Error loading team configuration - %v\n")
         :: snd (runL (loadTeams rest) b))
    | Some c =>
        (fst (runL (loadTeams rest)
                (Bot.setSubscriptions b
                   (<[domain.ExternalID t := subscriptionOf t c]> (Bot.subscriptions b)))),
         OfBot (RepoChannelsAndGroups (domain.ID t))
         :: OfBot (CacheStore (domain.ExternalID t))
         :: snd (runL (loadTeams rest)
                   (Bot.setSubscriptions b
                      (<[domain.ExternalID t := subscriptionOf t c]> (Bot.subscriptions b)))))
    end.
Proof.
  unfold runL. cbn [loadTeams]. unfold bindL, emitL, retL. cbn [fst snd].
  destruct (repo.ChannelsAndGroups (Bot.r b) (domain.ID t)); reflexivity.
Qed.

Lemma loadTeams_frame (teams : list domain.Team) :
  forall b : Bot.t,
    Bot.r (fst (runL (loadTeams teams) b)) = Bot.r b /\
    Bot.stats (fst (runL (loadTeams teams) b)) = Bot.stats b.
Proof.
  induction teams as [|t rest IH]; intros b; [split; reflexivity|].
  rewrite loadTeams_step.
  destruct (repo.ChannelsAndGroups (Bot.r b) (domain.ID t)) as [c|]; cbn [fst]; [|apply IH].
  apply (IH (Bot.setSubscriptions b _)).
Qed.

Lemma loadTeams_lookup (teams : list domain.Team) :
  forall b : Bot.t,
    NoDup (map domain.ExternalID teams) ->
    (forall t c, t ∈ teams -> repo.ChannelsAndGroups (Bot.r b) (domain.ID t) = Some c ->
       Bot.subscriptions (fst (runL (loadTeams teams) b)) !! domain.ExternalID t =
         Some (subscriptionOf t c)) /\
    (forall k,
       (forall t, t ∈ teams -> domain.ExternalID t = k ->
          repo.ChannelsAndGroups (Bot.r b) (domain.ID t) = None) ->
       Bot.subscriptions (fst (runL (loadTeams teams) b)) !! k = Bot.subscriptions b !! k).
Proof.
  induction teams as [|t0 rest IH]; intros b Hnd.
  - split; [intros t c Hin; inversion Hin | reflexivity].
  - cbn [map] in Hnd. apply NoDup_cons in Hnd as [Hnot Hnd].
    rewrite loadTeams_step.
    destruct (repo.ChannelsAndGroups (Bot.r b) (domain.ID t0)) as [c0|] eqn:E0; cbn [fst].
    + set (b0 := Bot.setSubscriptions b
                   (<[domain.ExternalID t0 := subscriptionOf t0 c0]> (Bot.subscriptions b))).
      destruct (IH b0 Hnd) as (IH1 & IH2). split.
      * intros t c Hin Hc. apply elem_of_cons in Hin as [->|Hin].
        -- rewrite IH2.
           ++ unfold b0. cbn [Bot.subscriptions Bot.setSubscriptions].
              rewrite lookup_insert_eq. congruence.
           ++ intros t Hin He. exfalso. apply Hnot. rewrite <- He.
              apply list_elem_of_fmap. eauto.
        -- apply IH1; assumption.
      * intros k Hk. rewrite IH2.
        -- unfold b0. cbn [Bot.subscriptions Bot.setSubscriptions].
           apply lookup_insert_ne. intros He.
           specialize (Hk t0 ltac:(left) He). congruence.
        -- intros t Hin He. apply Hk; [right; exact Hin | exact He].
    + destruct (IH b Hnd) as (IH1 & IH2). split.
      * intros t c Hin Hc. apply elem_of_cons in Hin as [->|Hin]; [congruence|].
        apply IH1; assumption.
      * intros k Hk. apply IH2. intros t Hin He. apply Hk; [right; exact Hin | exact He].
Qed.

Lemma loadTeams_keyed (teams : list domain.Team) :
  forall b : Bot.t,
    keyed (Bot.subscriptions b) ->
    keyed (Bot.subscriptions (fst (runL (loadTeams teams) b))).
Proof.
  induction teams as [|t0 rest IH]; intros b Hk; [exact Hk|].
  rewrite loadTeams_step.
  destruct (repo.ChannelsAndGroups (Bot.r b) (domain.ID t0)) as [c0|]; cbn [fst];
    [|apply IH; exact Hk].
  apply IH. cbn [Bot.subscriptions Bot.setSubscriptions].
  intros k sub Hl. destruct (decide (k = domain.ExternalID t0)) as [->|Hne].
  - rewrite lookup_insert_eq in Hl. injection Hl as <-. reflexivity.
  - rewrite lookup_insert_ne in Hl by congruence. apply Hk. exact Hl.
Qed.

Lemma loadSubscriptions_run (teams : list domain.Team) (b : Bot.t) :
  resultL (loadSubscriptions (Some teams)) b = true /\
  fst (runL (loadSubscriptions (Some teams)) b) = fst (runL (loadTeams teams) b).
Proof. split; reflexivity. Qed.

(** X17. [loadSubscriptions] returns no error once the
    teams are listed, even when a configuration fails to load: every team
    whose configuration loads is cached under its external identifier, a
    team whose configuration fails keeps the entry it had, the other entries
    and the counters are untouched (external identifiers distinct). *)
Theorem loadSubscriptions_skips_a_failing_team (teams : list domain.Team) (b : Bot.t) :
  NoDup (map domain.ExternalID teams) ->
  resultL (loadSubscriptions (Some teams)) b = true /\
  (forall t c, t ∈ teams -> repo.ChannelsAndGroups (Bot.r b) (domain.ID t) = Some c ->
     Bot.subscriptions (fst (runL (loadSubscriptions (Some teams)) b)) !! domain.ExternalID t =
       Some (subscriptionOf t c)) /\
  (forall t, t ∈ teams -> repo.ChannelsAndGroups (Bot.r b) (domain.ID t) = None ->
     Bot.subscriptions (fst (runL (loadSubscriptions (Some teams)) b)) !! domain.ExternalID t =
       Bot.subscriptions b !! domain.ExternalID t) /\
  (forall k, k ∉ map domain.ExternalID teams ->
     Bot.subscriptions (fst (runL (loadSubscriptions (Some teams)) b)) !! k =
       Bot.subscriptions b !! k) /\
  Bot.stats (fst (runL (loadSubscriptions (Some teams)) b)) = Bot.stats b.
Proof.
  intros Hnd. destruct (loadSubscriptions_run teams b) as (Hres & ->).
  destruct (loadTeams_lookup teams b Hnd) as (H1 & H2).
  split; [exact Hres|]. split; [exact H1|]. split; [|split].
  - intros t Hin Hc. apply H2. intros t' Hin' He.
    assert (t' = t); [|congruence].
    clear - Hnd Hin Hin' He. induction teams as [|a l IH]; [inversion Hin|].
    cbn [map] in Hnd. apply NoDup_cons in Hnd as [Hnot Hnd].
    apply elem_of_cons in Hin as [->|Hin]; apply elem_of_cons in Hin' as [->|Hin'].
    + reflexivity.
    + exfalso. apply Hnot. rewrite <- He. apply list_elem_of_fmap. eauto.
    + exfalso. apply Hnot. rewrite He. apply list_elem_of_fmap. eauto.
    + apply IH; assumption.
  - intros k Hk. apply H2. intros t Hin He. exfalso. apply Hk. rewrite <- He.
    apply list_elem_of_fmap. eauto.
  - apply loadTeams_frame.
Qed.

(** X18. [loadSubscriptions] keeps the invariant of the
    cache: every subscription is stored under the external identifier of its
    team. *)
Theorem loadSubscriptions_keeps_the_keys (Teams : option (list domain.Team)) (b : Bot.t) :
  keyed (Bot.subscriptions b) ->
  keyed (Bot.subscriptions (fst (runL (loadSubscriptions Teams) b))).
Proof.
  intros Hk. destruct Teams as [teams|]; [|exact Hk].
  destruct (loadSubscriptions_run teams b) as (_ & ->).
  apply loadTeams_keyed. exact Hk.
Qed.

Lemma HandleMessage_subscriptions (Hostname : string) (msg : slack.Response) (b : Bot.t) :
  Bot.subscriptions (fst (run (HandleMessage Hostname msg) b)) = Bot.subscriptions b \/
  exists t c,
    repo.TeamByExternalID (Bot.r b) (teamOf msg) = Some t /\
    Bot.subscriptions (fst (run (HandleMessage Hostname msg) b)) =
      <[teamOf msg := subscriptionOf t c]> (Bot.subscriptions b).
Proof.
  unfold teamOf.
  destruct msg as [f|]; [|left; reflexivity].
  destruct (String.eqb (slack.S (Some f) "team_id") "") eqn:Et.
  { left. unfold run, HandleMessage. rewrite Et. reflexivity. }
  apply String.eqb_neq in Et.
  destruct (resolve_cases (slack.S (Some f) "team_id") b) as [(sub & _ & Hr) | (_ & Hr)].
  - left. rewrite (HandleMessage_resolved Hostname _ b b sub _ Et Hr). cbn [fst].
    apply handleEvent_frame.
  - rewrite loadSubscription_cases in Hr.
    destruct (repo.TeamByExternalID (Bot.r b) _) as [t|] eqn:E1.
    + destruct (repo.ChannelsAndGroups (Bot.r b) (domain.ID t)) as [c|] eqn:E2;
        cbn [fst snd] in Hr.
      * right. exists t, c. split; [reflexivity|].
        rewrite (HandleMessage_resolved Hostname _ b _ _ _ Et Hr). cbn [fst].
        destruct (handleEvent_frame Hostname (slack.S (Some f) "team_id") (Some f)
                    (subscriptionOf t c)
                    (Bot.setSubscriptions b
                       (<[slack.S (Some f) "team_id" := subscriptionOf t c]>
                          (Bot.subscriptions b)))) as (-> & _).
        reflexivity.
      * left. rewrite (HandleMessage_unresolved Hostname _ b _ _ Et Hr). reflexivity.
    + left. cbn [fst snd] in Hr.
      rewrite (HandleMessage_unresolved Hostname _ b _ _ Et Hr). reflexivity.
Qed.

(** X19. [HandleMessage] keeps the same invariant when the
    repository answers a lookup by external identifier with a team of that
    identifier. *)
Theorem HandleMessage_keeps_the_keys (Hostname : string) (msg : slack.Response) (b : Bot.t) :
  consistent (Bot.r b) ->
  keyed (Bot.subscriptions b) ->
  keyed (Bot.subscriptions (fst (run (HandleMessage Hostname msg) b))).
Proof.
  intros Hc Hk.
  destruct (HandleMessage_subscriptions Hostname msg b) as [-> | (t & c & Ht & ->)];
    [exact Hk|].
  intros k sub Hl. destruct (decide (k = teamOf msg)) as [->|Hne].
  - rewrite lookup_insert_eq in Hl. injection Hl as <-. apply Hc. exact Ht.
  - rewrite lookup_insert_ne in Hl by congruence. apply Hk. exact Hl.
Qed.

Lemma monitorChanges_step (team : string) (rest : list (string * bool)) (b : Bot.t) :
  team <> "" ->
  resultL (monitorChanges ((team, true) :: rest)) b =
    resultL (monitorChanges rest)
      (Bot.setSubscriptions b (delete team (Bot.subscriptions b))) /\
  runL (monitorChanges ((team, true) :: rest)) b =
    (fst (runL (monitorChanges rest)
            (Bot.setSubscriptions b (delete team (Bot.subscriptions b)))),
     QueuePopConf
     :: OfBot (Log Debug "Configuration change received for team: [%s]")
     :: CacheDelete team
     :: snd (runL (monitorChanges rest)
               (Bot.setSubscriptions b (delete team (Bot.subscriptions b))))).
Proof.
  intros Ht. unfold resultL, runL. cbn [monitorChanges negb orb].
  rewrite (proj2 (String.eqb_neq _ _) Ht).
  unfold bindL, emitL, subscriptionChanged. cbn [fst snd app]. split; reflexivity.
Qed.

Lemma monitorChanges_quit (bad : string * bool) (rest : list (string * bool)) (b : Bot.t) :
  endsChanges bad = true ->
  monitorChanges (bad :: rest) b =
    (Ended, b, [QueuePopConf; LogInfo "Quiting monitoring changes"]).
Proof.
  unfold endsChanges. destruct bad as [team errNil]. cbn [fst snd]. intros H.
  cbn [monitorChanges]. rewrite H. reflexivity.
Qed.

(** X20. [monitorChanges] removes the
    subscription of every team it receives until the queue returns an error or
    an empty team; it then quits, having popped once per team and once more,
    with the other subscriptions and the counters untouched, and reads
    nothing that the queue holds after that. *)
Theorem monitorChanges_drops_each_changed_team (teams : list string) (bad : string * bool)
    (rest : list (string * bool)) (b : Bot.t) :
  Forall (fun t => t <> "") teams ->
  endsChanges bad = true ->
  resultL (monitorChanges (changes teams ++ bad :: rest)) b = Ended /\
  (forall k,
     Bot.subscriptions (fst (runL (monitorChanges (changes teams ++ bad :: rest)) b)) !! k =
       if bool_decide (k ∈ teams) then None else Bot.subscriptions b !! k) /\
  Bot.stats (fst (runL (monitorChanges (changes teams ++ bad :: rest)) b)) = Bot.stats b /\
  confPops (snd (runL (monitorChanges (changes teams ++ bad :: rest)) b)) = S (length teams) /\
  monitorChanges (changes teams ++ bad :: rest) b = monitorChanges (changes teams ++ [bad]) b.
Proof.
  intros Hne Hbad. revert b.
  induction Hne as [|t teams Ht Hne IH]; intros b.
  - cbn [changes map app]. unfold resultL, runL.
    rewrite !(monitorChanges_quit bad _ b Hbad). cbn [fst snd].
    repeat split.
  - cbn [changes map app]. fold (changes teams).
    destruct (monitorChanges_step t (changes teams ++ bad :: rest) b Ht) as (Hres & Hrun).
    destruct (monitorChanges_step t (changes teams ++ [bad]) b Ht) as (Hres' & Hrun').
    destruct (IH (Bot.setSubscriptions b (delete t (Bot.subscriptions b))))
      as (I1 & I2 & I3 & I4 & I5).
    rewrite Hres, Hrun. cbn [fst snd]. split; [exact I1|]. split; [|split; [|split]].
    + intros k. rewrite I2. cbn [Bot.subscriptions Bot.setSubscriptions].
      destruct (decide (k = t)) as [->|Hk].
      * rewrite lookup_delete_eq. rewrite (bool_decide_true (t ∈ t :: teams)) by left.
        destruct (bool_decide _); reflexivity.
      * rewrite lookup_delete_ne by congruence.
        rewrite (bool_decide_ext (k ∈ t :: teams) (k ∈ teams)); [reflexivity|].
        rewrite elem_of_cons. tauto.
    + rewrite I3. reflexivity.
    + unfold confPops in *. cbn [length]. change (omap ?f (QueuePopConf :: ?l)) with (tt :: omap f l).
      change (omap ?f (OfBot ?e :: ?l)) with (omap f l).
      change (omap ?f (CacheDelete ?e :: ?l)) with (omap f l).
      cbn [length]. rewrite I4. reflexivity.
    + unfold resultL, runL in *.
      destruct (monitorChanges ((t, true) :: changes teams ++ bad :: rest) b) as [[e1 s1] t1].
      destruct (monitorChanges ((t, true) :: changes teams ++ [bad]) b) as [[e2 s2] t2].
      cbn [fst snd] in *. rewrite I5 in Hres, Hrun. congruence.
Qed.

Lemma monitorReplies_step (Hostname : string) (rp : domain.WorkRequest.t)
    (rest : list (option domain.WorkRequest.t * bool)) (b : Bot.t) :
  monitorReplies Hostname ((Some rp, true) :: rest) b =
    (fst (monitorReplies Hostname rest b),
     QueuePopWorkReply Hostname :: HandleReply rp :: snd (monitorReplies Hostname rest b)).
Proof. cbn [monitorReplies negb]. unfold bindL, emitL. reflexivity. Qed.

Lemma monitorReplies_quit (Hostname : string) (bad : option domain.WorkRequest.t * bool)
    (rest : list (option domain.WorkRequest.t * bool)) (b : Bot.t) :
  endsReplies bad = true ->
  monitorReplies Hostname (bad :: rest) b =
    (Ended, b, [QueuePopWorkReply Hostname; LogInfo "Quiting monitoring replies - %v\n"]).
Proof.
  unfold endsReplies. destruct bad as [[rp|] errNil]; cbn [fst snd]; intros H.
  - rewrite orb_false_r in H. cbn [monitorReplies]. rewrite H. reflexivity.
  - reflexivity.
Qed.

(** X21. [monitorReplies] hands on every reply it
    receives, in the order of arrival, until the queue returns an error or a
    nil reply; it then quits and leaves the bot as it was. *)
Theorem monitorReplies_hands_on_each_reply (Hostname : string) (rs : list domain.WorkRequest.t)
    (bad : option domain.WorkRequest.t * bool)
    (rest : list (option domain.WorkRequest.t * bool)) (b : Bot.t) :
  endsReplies bad = true ->
  resultL (monitorReplies Hostname (replies rs ++ bad :: rest)) b = Ended /\
  handled (snd (runL (monitorReplies Hostname (replies rs ++ bad :: rest)) b)) = rs /\
  fst (runL (monitorReplies Hostname (replies rs ++ bad :: rest)) b) = b.
Proof.
  intros Hbad. induction rs as [|rp rs IH].
  - cbn [replies map app]. unfold resultL, runL.
    rewrite (monitorReplies_quit Hostname bad rest b Hbad). repeat split.
  - cbn [replies map app]. fold (replies rs). unfold resultL, runL in *.
    rewrite monitorReplies_step. cbn [fst snd] in *.
    destruct IH as (I1 & I2 & I3). split; [exact I1|]. split; [|exact I3].
    change (handled (QueuePopWorkReply Hostname :: HandleReply rp :: ?l))
      with (rp :: handled l).
    rewrite I2. reflexivity.
Qed.

Lemma goroutines_skip (e : Event) (l : list Event) :
  match e with Go _ => False | _ => True end ->
  goroutines (e :: l) = goroutines l.
Proof. destruct e; intros H; first [reflexivity | contradiction]. Qed.

Lemma goroutines_app (l1 l2 : list Event) :
  goroutines (l1 ++ l2) = (goroutines l1 ++ goroutines l2)%list.
Proof. apply omap_app. Qed.

Lemma goroutines_OfBot (l : list Effect) : goroutines (map OfBot l) = [].
Proof. induction l as [|e l IH]; [reflexivity|]. cbn [map]. rewrite goroutines_skip by exact I. exact IH. Qed.

Lemma tickLoop_step (hb : bool) (order : list string) (rest : list Signal) (b : Bot.t) :
  resultL (tickLoop (Tick hb order :: rest)) b =
    resultL (tickLoop rest) (fst (run (storeStatistics order) b)) /\
  fst (runL (tickLoop (Tick hb order :: rest)) b) =
    fst (runL (tickLoop rest) (fst (run (storeStatistics order) b))) /\
  goroutines (snd (runL (tickLoop (Tick hb order :: rest)) b)) =
    goroutines (snd (runL (tickLoop rest) (fst (run (storeStatistics order) b)))).
Proof.
  unfold resultL, runL, run. cbn [tickLoop]. unfold bindL, emitL, retL, lift.
  destruct hb; cbn [fst snd app]; repeat split;
    rewrite ?goroutines_skip by exact I;
    rewrite goroutines_app, goroutines_OfBot; reflexivity.
Qed.

Lemma tickLoop_until_stop (l : list (bool * list string)) (rest : list Signal) :
  forall b : Bot.t,
    resultL (tickLoop (ticks l ++ Stopped :: rest)) b = Ended /\
    fst (runL (tickLoop (ticks l ++ Stopped :: rest)) b) = flushAll (map snd l) b /\
    goroutines (snd (runL (tickLoop (ticks l ++ Stopped :: rest)) b)) = [].
Proof.
  induction l as [|[hb order] l IH]; intros b.
  - repeat split.
  - cbn [ticks map app fst snd]. fold (ticks l).
    destruct (tickLoop_step hb order (ticks l ++ Stopped :: rest) b) as (-> & -> & ->).
    unfold flushAll. cbn [fold_left]. apply IH.
Qed.

(** X22. [Start] returns an error exactly when the
    first heartbeat or the listing of the teams fails; it has then started no
    goroutine and left the bot as it was. *)
Theorem Start_fails_before_it_starts_anything (heartbeatOk : bool)
    (Teams : option (list domain.Team)) (signals : list Signal) (b : Bot.t) :
  (resultL (Start heartbeatOk Teams signals) b = Returned false <->
   heartbeatOk = false \/ Teams = None) /\
  (resultL (Start heartbeatOk Teams signals) b = Returned false ->
   fst (runL (Start heartbeatOk Teams signals) b) = b /\
   goroutines (snd (runL (Start heartbeatOk Teams signals) b)) = []).
Proof.
  destruct heartbeatOk; [|split; [split; auto | intros _; split; reflexivity]].
  destruct Teams as [teams|];
    [|split; [split; auto | intros _; split; reflexivity]].
  assert (Hne : resultL (Start true (Some teams) signals) b <> Returned false).
  { unfold resultL, Start, loadSubscriptions. unfold bindL, emitL, retL. cbn [negb fst snd].
    match goal with
    | |- context [tickLoop signals ?x] => destruct (fst (fst (tickLoop signals x)))
    end; discriminate. }
  split; [split; [intros H; contradiction | intros [H|H]; discriminate H]|].
  intros H. contradiction.
Qed.

(** X23. Once started, [Start] flushes the
    counters on every tick, whether the heartbeat of the tick succeeded or
    not, until it is stopped; it then returns no error and ignores the
    signals that follow; the two listeners were started. *)
Theorem Start_flushes_on_every_tick_until_stopped (teams : list domain.Team)
    (l : list (bool * list string)) (rest : list Signal) (b : Bot.t) :
  resultL (Start true (Some teams) (ticks l ++ Stopped :: rest)) b = Returned true /\
  fst (runL (Start true (Some teams) (ticks l ++ Stopped :: rest)) b) =
    flushAll (map snd l) (fst (runL (loadSubscriptions (Some teams)) b)) /\
  goroutines (snd (runL (Start true (Some teams) (ticks l ++ Stopped :: rest)) b)) =
    ["monitorChanges"; "monitorReplies"].
Proof.
  destruct (tickLoop_until_stop l rest (fst (runL (loadSubscriptions (Some teams)) b)))
    as (H1 & H2 & H3).
  unfold resultL, runL in *. unfold Start, bindL, emitL, retL in *.
  cbn [negb fst snd] in *. unfold loadSubscriptions, bindL, emitL, retL in *.
  cbn [negb fst snd] in *.
  rewrite H1, H2. split; [reflexivity|]. split; [reflexivity|].
  rewrite !goroutines_app. rewrite H3.
  assert (Hl : forall b0, goroutines (snd (loadTeams teams b0)) = []).
  { clear. induction teams as [|t ts IH]; intros b0; [reflexivity|].
    pose proof (loadTeams_step t ts b0) as Hs. unfold runL in Hs.
    apply (f_equal snd) in Hs. cbn [snd] in Hs. rewrite Hs.
    destruct (repo.ChannelsAndGroups (Bot.r b0) (domain.ID t)); cbn [snd];
      rewrite !goroutines_skip by exact I; apply IH. }
  rewrite Hl. reflexivity.
Qed.



(** ** The middleware *)

Lemma after_nil (o : web.Outcome) : web.after [] o = o.
Proof. destruct o. reflexivity. Qed.

Lemma HasPrefix_append (p s : string) : strings.HasPrefix (p ++ s) p = true.
Proof.
  unfold strings.HasPrefix. induction p as [|c p IH].
  - destruct s; reflexivity.
  - rewrite append_cons. cbn [String.prefix].
    destruct (ascii_dec c c); [exact IH | congruence].
Qed.

Lemma safe_method (r : web.Request) :
  web.Method r = "GET" \/ web.Method r = "HEAD" ->
  String.eqb (web.Method r) "GET" || String.eqb (web.Method r) "HEAD" = true.
Proof. intros [-> | ->]; reflexivity. Qed.

Lemma unsafe_method (r : web.Request) :
  web.Method r <> "GET" -> web.Method r <> "HEAD" ->
  String.eqb (web.Method r) "GET" || String.eqb (web.Method r) "HEAD" = false.
Proof.
  intros H1 H2.
  rewrite (proj2 (String.eqb_neq _ _) H1), (proj2 (String.eqb_neq _ _) H2). reflexivity.
Qed.

(** X24. [csrfHandler] never rejects a GET or a HEAD: with a
    token cookie the request goes to the next handler as it is; without one, a
    cookie holding a fresh token is set first (readable by scripts, secure
    exactly when an SSL key is configured), or the failure to make one is
    logged, and the request still goes on. *)
Theorem csrf_lets_safe_methods_through (env : web.Env) (next : web.Handler)
    (r : web.Request) :
  web.Method r = "GET" \/ web.Method r = "HEAD" ->
  (forall v, web.CookieValue r web.xsrfCookie = Some v ->
     web.csrfHandler env next r = next r) /\
  (web.CookieValue r web.xsrfCookie = None ->
   forall v,
     web.Encrypt env (web.noXSRFAllowed ++ web.timeString env (web.now env))
       (web.SessionKey env) = Some v ->
     exists c,
       web.csrfHandler env next r = web.after [web.SetCookie c] (next r) /\
       web.Name c = web.xsrfCookie /\ web.Value c = v /\
       web.HttpOnly c = false /\
       web.Secure c = negb (String.eqb (web.SSLKey env) "")) /\
  (web.CookieValue r web.xsrfCookie = None ->
   web.Encrypt env (web.noXSRFAllowed ++ web.timeString env (web.now env))
     (web.SessionKey env) = None ->
   web.csrfHandler env next r =
     web.after [web.Log "error" "Unable to generate CSRF"] (next r)).
Proof.
  intros Hm. apply safe_method in Hm. unfold web.csrfHandler. rewrite Hm. cbn [fst snd].
  split; [|split].
  - intros v ->. apply after_nil.
  - intros -> v ->. eexists. split; [reflexivity|]. repeat split.
  - intros -> ->. reflexivity.
Qed.

(** X25. For any other method [csrfHandler]
    answers with the CSRF error, whatever the next handler is, when the token
    cookie is absent or differs from the token header, or when the header
    does not decrypt to a text that starts with the token prefix. *)
Theorem csrf_rejects_without_a_matching_token (env : web.Env) (next : web.Handler)
    (r : web.Request) :
  web.Method r <> "GET" ->
  web.Method r <> "HEAD" ->
  web.CookieValue r web.xsrfCookie <> Some (web.HeaderGet r web.xsrfHeader) \/
  (forall m, web.Decrypt env (web.HeaderGet r web.xsrfHeader) (web.SessionKey env) = Some m ->
     strings.HasPrefix m web.noXSRFAllowed = false) ->
  web.csrfHandler env next r = ([web.WriteError web.ErrCSRF], None).
Proof.
  intros H1 H2 Hbad. unfold web.csrfHandler. rewrite (unsafe_method r H1 H2).
  destruct (web.CookieValue r web.xsrfCookie) as [v|]; [|reflexivity].
  destruct (String.eqb v (web.HeaderGet r web.xsrfHeader)) eqn:Ev; [|reflexivity].
  apply String.eqb_eq in Ev. subst v.
  destruct Hbad as [Hbad | Hbad]; [congruence|].
  destruct (web.Decrypt env _ _) as [m|]; [|reflexivity].
  rewrite (Hbad m eq_refl). reflexivity.
Qed.

(** X26. When decryption undoes encryption, the token
    that [csrfHandler] sets on a GET is accepted on a later request of any
    method that sends it back both as cookie and as header. *)
Theorem csrf_accepts_the_token_it_issued (env : web.Env) (next : web.Handler)
    (get post : web.Request) (v : string) :
  (forall m c p, web.Encrypt env m p = Some c -> web.Decrypt env c p = Some m) ->
  web.Method get = "GET" \/ web.Method get = "HEAD" ->
  web.CookieValue get web.xsrfCookie = None ->
  web.Encrypt env (web.noXSRFAllowed ++ web.timeString env (web.now env))
    (web.SessionKey env) = Some v ->
  web.CookieValue post web.xsrfCookie = Some v ->
  web.HeaderGet post web.xsrfHeader = v ->
  (exists c, web.csrfHandler env next get = web.after [web.SetCookie c] (next get) /\
             web.Value c = v) /\
  web.csrfHandler env next post = next post.
Proof.
  intros Hrt Hm Hc He Hcp Hhp. split.
  - apply safe_method in Hm. unfold web.csrfHandler. rewrite Hm, Hc, He. cbn [fst snd].
    eexists. split; reflexivity.
  - unfold web.csrfHandler.
    destruct (String.eqb (web.Method post) "GET" || String.eqb (web.Method post) "HEAD");
      rewrite Hcp; cbn [fst snd]; [apply after_nil|].
    rewrite Hhp, String.eqb_refl, (Hrt _ _ _ He), HasPrefix_append. cbn [fst snd].
    apply after_nil.
Qed.

(** X27. [authHandler] reaches the
    next handler only when the session cookie is present and decrypts, the
    session is not older than the timeout, the user loads and is active. *)
Theorem auth_serves_only_a_live_session_of_an_active_user (env : web.Env)
    (r : web.Request) :
  web.Log "info" "served" ∈ fst (web.authHandler env web.served r) ->
  exists value sess u,
    web.CookieValue r web.sessionCookie = Some value /\
    web.DecryptJSON env value (web.SessionKey env) = Some sess /\
    (web.Since env (web.When sess) <= web.wrap64 (web.Timeout env * web.minute))%Z /\
    web.LoadUser env (web.UserID sess) = Some u /\
    web.Status u = web.StatusActive env.
Proof.
  unfold web.authHandler. intros Hin.
  destruct (web.CookieValue r web.sessionCookie) as [value|]; cycle 1.
  { exfalso. cbn [fst] in Hin.
    repeat (apply elem_of_cons in Hin as [Hin|Hin]; [discriminate Hin|]). inversion Hin. }
  destruct (web.DecryptJSON env value (web.SessionKey env)) as [sess|] eqn:Ed; cycle 1.
  { exfalso. cbn [fst] in Hin.
    repeat (apply elem_of_cons in Hin as [Hin|Hin]; [discriminate Hin|]). inversion Hin. }
  destruct (web.wrap64 (web.Timeout env * web.minute) <? web.Since env (web.When sess))%Z eqn:Et.
  { exfalso. cbn [fst] in Hin.
    repeat (apply elem_of_cons in Hin as [Hin|Hin]; [discriminate Hin|]). inversion Hin. }
  destruct (web.LoadUser env (web.UserID sess)) as [u|] eqn:Eu; cycle 1.
  { exfalso. cbn [fst] in Hin.
    repeat (apply elem_of_cons in Hin as [Hin|Hin]; [discriminate Hin|]). inversion Hin. }
  destruct (Z.eqb (web.Status u) (web.StatusActive env)) eqn:Es; cbn [negb] in Hin; cycle 1.
  { exfalso. cbn [fst] in Hin.
    repeat (apply elem_of_cons in Hin as [Hin|Hin]; [discriminate Hin|]). inversion Hin. }
  exists value, sess, u. apply Z.ltb_ge in Et. apply Z.eqb_eq in Es. auto.
Qed.

(** X28. For a live session of an active user
    [authHandler] sets, before the next handler runs, a session cookie that
    holds the same user with the time of this request, hidden from scripts,
    whose maximal age is the timeout in seconds. *)
Theorem auth_refreshes_the_session_cookie (env : web.Env) (next : web.Handler)
    (r : web.Request) (value : string) (sess : web.session) (u : web.user) :
  web.CookieValue r web.sessionCookie = Some value ->
  web.DecryptJSON env value (web.SessionKey env) = Some sess ->
  (web.Since env (web.When sess) <= web.wrap64 (web.Timeout env * web.minute))%Z ->
  web.LoadUser env (web.UserID sess) = Some u ->
  web.Status u = web.StatusActive env ->
  exists c,
    web.authHandler env next r =
      web.after [web.SetContext web.contextSession; web.Log "debug" "User %v in request";
                 web.SetContext web.contextUser; web.SetCookie c] (next r) /\
    web.Name c = web.sessionCookie /\
    web.Value c =
      web.EncryptJSON env {| web.User := web.User sess; web.UserID := web.UserID sess;
                             web.When := web.now env |} (web.SessionKey env) /\
    web.HttpOnly c = true /\
    web.MaxAge c = web.wrap64 (web.Timeout env * 60).
Proof.
  intros Hc Hd Ht Hu Hs. unfold web.authHandler. rewrite Hc, Hd.
  rewrite (proj2 (Z.ltb_ge _ _) Ht), Hu, Hs, Z.eqb_refl. cbn [negb].
  eexists. split; [reflexivity|]. repeat split.
Qed.

(** X29. When the user of a live session
    cannot be loaded [authHandler] panics, and under [recoverHandler] the
    request is answered with the internal server error instead, without
    reaching the next handler. *)
Theorem recovered_auth_answers_a_repository_error (env : web.Env) (next : web.Handler)
    (r : web.Request) (value : string) (sess : web.session) :
  web.CookieValue r web.sessionCookie = Some value ->
  web.DecryptJSON env value (web.SessionKey env) = Some sess ->
  (web.Since env (web.When sess) <= web.wrap64 (web.Timeout env * web.minute))%Z ->
  web.LoadUser env (web.UserID sess) = None ->
  snd (web.authHandler env next r) = Some "error loading user" /\
  web.recoverHandler (web.authHandler env next) r =
    ([web.SetContext web.contextSession; web.Log "debug" "User %v in request";
      web.Log "warn" "Unable to load user from repository";
      web.Log "warn" "Recovered from error"; web.WriteError web.ErrInternalServer],
     None).
Proof.
  intros Hc Hd Ht Hu. unfold web.recoverHandler, web.authHandler.
  rewrite Hc, Hd, (proj2 (Z.ltb_ge _ _) Ht), Hu. split; reflexivity.
Qed.

(** ** The further properties on sample data *)

Lemma loadSubscription_error_witness :
  snd (fst (loadSubscription "T9" freshBot)) = freshBot.
Proof.
  destruct (loadSubscription_error_keeps_the_bot "T9" freshBot) as (H & _);
    [reflexivity | exact H].
Defined.

Lemma loadSubscription_then_lookup_witness :
  relevantTeam "T1" (loadedBot freshBot) =
    (Some sampleSub, loadedBot freshBot, [CacheLookup "T1"]).
Proof.
  destruct (loadSubscription_then_lookup "T1" freshBot (loadedBot freshBot) sampleSub
              (snd (loadSubscription "T1" freshBot))) as (H & _);
    [reflexivity | exact H].
Defined.


Lemma changed_team_witness :
  Bot.subscriptions
    (fst (run (HandleMessage "bot-1" ipMsg)
            (fst (runL (subscriptionChanged (teamOf ipMsg)) (loadedBot freshBot)))))
    !! teamOf ipMsg = Some sampleSub.
Proof.
  destruct (changed_team_is_fetched_again "bot-1" ipMsg (loadedBot freshBot)) as (_ & H);
    [discriminate | rewrite H; reflexivity].
Defined.

Lemma unknown_team_witness :
  pushes (snd (run (HandleMessage "bot-1" (sampleMsg "T9" "" "U1" "C123" "see 10.0.0.1"))
                 freshBot)) = [].
Proof.
  destruct (unknown_team_is_dropped "bot-1" (sampleMsg "T9" "" "U1" "C123" "see 10.0.0.1")
              freshBot) as (_ & H & _);
    [discriminate | reflexivity | reflexivity | exact H].
Defined.

Lemma other_event_types_witness :
  run (HandleMessage "bot-1" reactionMsg) freshBot = (loadedBot freshBot, loadTrace freshBot).
Proof.
  destruct (other_event_types_are_ignored "bot-1" reactionMsg freshBot (loadedBot freshBot)
              sampleSub (loadTrace freshBot)) as (H & _);
    [discriminate | reflexivity | discriminate | exact H].
Defined.

Lemma file_share_witness :
  classify (eventOf (sampleMsg "T1" "file_share" "U1" "D123" "config")) sampleSub = Trigger.
Proof.
  destruct (file_share_is_always_pushed "bot-1"
              (sampleMsg "T1" "file_share" "U1" "D123" "config") freshBot
              (loadedBot freshBot) sampleSub (loadTrace freshBot)) as (H & _);
    [discriminate | reflexivity | reflexivity | discriminate | reflexivity | exact H].
Defined.

Lemma other_subtypes_witness :
  pushes (snd (run (HandleMessage "bot-1"
                      (sampleMsg "T1" "message_changed" "U1" "C123" "see 10.0.0.1"))
                 freshBot)) = [].
Proof.
  destruct (other_subtypes_are_never_pushed "bot-1"
              (sampleMsg "T1" "message_changed" "U1" "C123" "see 10.0.0.1") freshBot)
    as (_ & _ & H); [discriminate | discriminate | exact H].
Defined.

Lemma command_as_sent_witness :
  handlers (snd (run (HandleMessage "bot-1" (sampleMsg "T1" "" "U1" "D123" "join #general"))
                   freshBot)) =
    [joinChannels "T1" "join #general" "D123" sampleSub].
Proof.
  destruct (command_as_sent_runs_one_handler "bot-1"
              (sampleMsg "T1" "" "U1" "D123" "join #general") freshBot
              (loadedBot freshBot) sampleSub (loadTrace freshBot)) as (_ & _ & _ & _ & H);
    [discriminate | reflexivity | reflexivity | discriminate | reflexivity | reflexivity
    | reflexivity | exact (H eq_refl)].
Defined.


Lemma no_handler_witness :
  handlers (snd (run (HandleMessage "bot-1" (sampleMsg "T1" "" "U1" "C123" "join #general"))
                   freshBot)) = [].
Proof.
  apply (no_handler_outside_direct_channel "bot-1"
           (sampleMsg "T1" "" "U1" "C123" "join #general") freshBot). reflexivity.
Defined.

Lemma counted_message_witness :
  Bot.stats (fst (run (HandleMessage "bot-1" (sampleMsg "T1" "" "U1" "C123" "hello")) freshBot))
    !! "T1" = Some {| domain.Statistics.Team := "1"; domain.Statistics.Messages := 1 |}.
Proof.
  destruct (counted_message_makes_or_bumps_the_entry "bot-1"
              (sampleMsg "T1" "" "U1" "C123" "hello") freshBot (loadedBot freshBot)
              sampleSub (loadTrace freshBot)) as (H & _);
    [discriminate | reflexivity | left; reflexivity | exact H].
Defined.

Lemma NoDup_TA_TB : NoDup ["TA"; "TB"].
Proof.
  apply NoDup_cons. split; [|apply NoDup_singleton].
  intros H. apply elem_of_cons in H as [H|H]; [discriminate H | inversion H].
Defined.

Lemma second_flush_witness :
  domain.Statistics.Messages
    {| domain.Statistics.Team := "1"; domain.Statistics.Messages := 0 |} = 0%Z.
Proof.
  apply (second_flush_hands_over_zeros ["TA"; "TB"] ["TA"; "TB"]
           (sampleBot (fun _ => true) true sampleStats) "TA"
           {| domain.Statistics.Team := "1"; domain.Statistics.Messages := 0 |}
           NoDup_TA_TB NoDup_TA_TB).
  - reflexivity.
  - left.
  - vm_compute. left.
Defined.

Lemma flush_keeps_the_entries_witness :
  Bot.subscriptions (fst (run (storeStatistics ["TA"; "TB"])
                            (sampleBot (fun _ => false) true sampleStats))) = ∅.
Proof.
  destruct (flush_keeps_the_entries ["TA"; "TB"] (sampleBot (fun _ => false) true sampleStats)
              NoDup_TA_TB) as (H & _).
  exact H.
Defined.

Lemma counted_message_reaches_witness :
  persists (snd (run (storeStatistics ["T1"])
                   (fst (run (HandleMessage "bot-1" (sampleMsg "T1" "" "U1" "C123" "hello"))
                           freshBot)))) =
    [("T1", {| domain.Statistics.Team := "1"; domain.Statistics.Messages := 1 |})].
Proof.
  destruct (counted_message_reaches_the_repository "bot-1"
              (sampleMsg "T1" "" "U1" "C123" "hello") freshBot (loadedBot freshBot)
              sampleSub (loadTrace freshBot)
              {| domain.Statistics.Team := "1"; domain.Statistics.Messages := 1 |})
    as (_ & H & _);
    [discriminate | reflexivity | left; reflexivity | reflexivity | reflexivity | exact H].
Defined.

Lemma NoDup_T1_T2 : NoDup (map domain.ExternalID [secondTeam; sampleTeam]).
Proof.
  apply NoDup_cons. split; [|apply NoDup_singleton].
  intros H. apply elem_of_cons in H as [H|H]; [discriminate H | inversion H].
Defined.

Lemma loadSubscriptions_witness :
  Bot.subscriptions (fst (runL (loadSubscriptions (Some [secondTeam; sampleTeam])) partialBot))
    !! "T1" = Some (subscriptionOf sampleTeam [("C1", true)]) /\
  Bot.subscriptions (fst (runL (loadSubscriptions (Some [secondTeam; sampleTeam])) partialBot))
    !! "T2" = None.
Proof.
  destruct (loadSubscriptions_skips_a_failing_team [secondTeam; sampleTeam] partialBot
              NoDup_T1_T2) as (_ & H1 & H2 & _).
  split.
  - apply (H1 sampleTeam [("C1", true)]); [right; left | reflexivity].
  - exact (H2 secondTeam ltac:(left) eq_refl).
Defined.

Lemma keyed_empty : keyed ∅.
Proof. intros k sub H. rewrite lookup_empty in H. discriminate H. Defined.

Lemma loadSubscriptions_keys_witness :
  keyed (Bot.subscriptions
           (fst (runL (loadSubscriptions (Some [secondTeam; sampleTeam])) partialBot))).
Proof.
  apply (loadSubscriptions_keeps_the_keys (Some [secondTeam; sampleTeam]) partialBot).
  exact keyed_empty.
Defined.

Lemma consistent_sample : consistent (Bot.r freshBot).
Proof.
  intros k t. cbn. destruct (String.eqb k "T1") eqn:E; intros H; [|discriminate H].
  injection H as <-. apply String.eqb_eq in E. subst k. reflexivity.
Defined.

Lemma HandleMessage_keys_witness :
  keyed (Bot.subscriptions (fst (run (HandleMessage "bot-1" ipMsg) freshBot))).
Proof.
  apply (HandleMessage_keeps_the_keys "bot-1" ipMsg freshBot consistent_sample keyed_empty).
Defined.

Lemma monitorChanges_witness :
  Bot.subscriptions
    (fst (runL (monitorChanges (changes ["T1"] ++ [("", true); ("T2", true)]))
            (loadedBot freshBot))) !! "T1" = None /\
  confPops (snd (runL (monitorChanges (changes ["T1"] ++ [("", true); ("T2", true)]))
                   (loadedBot freshBot))) = 2.
Proof.
  destruct (monitorChanges_drops_each_changed_team ["T1"] ("", true) [("T2", true)]
              (loadedBot freshBot)) as (_ & H1 & _ & H2 & _).
  - apply Forall_cons. split; [discriminate | apply Forall_nil_2].
  - reflexivity.
  - split; [rewrite H1; reflexivity | exact H2].
Defined.

Lemma monitorReplies_witness :
  handled (snd (runL (monitorReplies "bot-1"
                        (replies [workRequestOf "bot-1" "T1" (eventOf ipMsg) sampleSub] ++
                         [(None, true)])) freshBot)) =
    [workRequestOf "bot-1" "T1" (eventOf ipMsg) sampleSub].
Proof.
  destruct (monitorReplies_hands_on_each_reply "bot-1"
              [workRequestOf "bot-1" "T1" (eventOf ipMsg) sampleSub] (None, true) [] freshBot)
    as (_ & H & _); [reflexivity | exact H].
Defined.

Lemma csrf_safe_witness :
  web.csrfHandler web.sampleEnv web.served (web.sampleRequest "GET" (Some "t") "" None) =
    web.served (web.sampleRequest "GET" (Some "t") "" None).
Proof.
  destruct (csrf_lets_safe_methods_through web.sampleEnv web.served
              (web.sampleRequest "GET" (Some "t") "" None)) as (H & _);
    [left; reflexivity | exact (H "t" eq_refl)].
Defined.

Lemma csrf_reject_witness :
  web.csrfHandler web.sampleEnv web.served (web.sampleRequest "POST" None "x" None) =
    ([web.WriteError web.ErrCSRF], None).
Proof.
  apply (csrf_rejects_without_a_matching_token web.sampleEnv web.served
           (web.sampleRequest "POST" None "x" None));
    [discriminate | discriminate | left; discriminate].
Defined.

Lemma csrf_round_trip_witness :
  web.csrfHandler web.sampleEnv web.served
    (web.sampleRequest "POST" (Some "No XSRF Allowed now") "No XSRF Allowed now" None) =
  web.served (web.sampleRequest "POST" (Some "No XSRF Allowed now") "No XSRF Allowed now" None).
Proof.
  destruct (csrf_accepts_the_token_it_issued web.sampleEnv web.served
              (web.sampleRequest "GET" None "" None)
              (web.sampleRequest "POST" (Some "No XSRF Allowed now") "No XSRF Allowed now" None)
              "No XSRF Allowed now") as (_ & H).
  - intros m c p E. injection E as <-. reflexivity.
  - left; reflexivity.
  - reflexivity.
  - reflexivity.
  - reflexivity.
  - reflexivity.
  - exact H.
Defined.

Lemma auth_only_witness :
  web.LoadUser web.sampleEnv "u1" =
    Some {| web.ID := "u1"; web.UserName := "ann"; web.Status := 1 |} /\
  exists value sess u,
    web.CookieValue (web.sampleRequest "GET" None "" (Some "u1")) web.sessionCookie =
      Some value /\
    web.DecryptJSON web.sampleEnv value (web.SessionKey web.sampleEnv) = Some sess /\
    (web.Since web.sampleEnv (web.When sess) <=
     web.wrap64 (web.Timeout web.sampleEnv * web.minute))%Z /\
    web.LoadUser web.sampleEnv (web.UserID sess) = Some u /\
    web.Status u = web.StatusActive web.sampleEnv.
Proof.
  split; [reflexivity|].
  apply (auth_serves_only_a_live_session_of_an_active_user web.sampleEnv
           (web.sampleRequest "GET" None "" (Some "u1"))).
  vm_compute. do 4 right. left.
Defined.

Lemma auth_refresh_witness :
  exists c,
    web.authHandler web.sampleEnv web.served (web.sampleRequest "GET" None "" (Some "u1")) =
      web.after [web.SetContext web.contextSession; web.Log "debug" "User %v in request";
                 web.SetContext web.contextUser; web.SetCookie c]
        (web.served (web.sampleRequest "GET" None "" (Some "u1"))) /\
    web.HttpOnly c = true.
Proof.
  destruct (auth_refreshes_the_session_cookie web.sampleEnv web.served
              (web.sampleRequest "GET" None "" (Some "u1")) "u1"
              {| web.User := "ann"; web.UserID := "u1"; web.When := 0 |}
              {| web.ID := "u1"; web.UserName := "ann"; web.Status := 1 |})
    as (c & H & _ & _ & Hh & _);
    [reflexivity | reflexivity | vm_compute; discriminate | reflexivity | reflexivity |].
  exists c. split; [exact H | exact Hh].
Defined.

Lemma recovered_auth_witness :
  web.recoverHandler (web.authHandler web.sampleEnv web.served)
    (web.sampleRequest "GET" None "" (Some "u7")) =
    ([web.SetContext web.contextSession; web.Log "debug" "User %v in request";
      web.Log "warn" "Unable to load user from repository";
      web.Log "warn" "Recovered from error"; web.WriteError web.ErrInternalServer],
     None).
Proof.
  destruct (recovered_auth_answers_a_repository_error web.sampleEnv web.served
              (web.sampleRequest "GET" None "" (Some "u7")) "u7"
              {| web.User := "ann"; web.UserID := "u7"; web.When := 0 |}) as (_ & H);
    [reflexivity | reflexivity | vm_compute; discriminate | reflexivity | exact H].
Defined.
